(** * Person detection pipeline: a shallow embedding

    The development follows the two modules of the repository:
    - [src/detector.py]: [PersonDetector.detect_persons] and
      [PersonDetector.draw_detections];
    - [src/video_processor.py]: [VideoProcessor.process_video].

    Python floats are modelled by rationals ([Q]); Python integers by [Z].
    OpenCV, the clock and the detection model are external: they appear as
    oracles (type classes and record fields), never as axioms.  Printing is
    left out, except for the division that line 78 of video_processor.py
    evaluates in order to print it; so are [VideoProcessor.__init__] and
    [main.py], which only build the arguments of [process_video]. *)

From Stdlib Require Import ZArith QArith Qround List String Ascii Lia Lqa Bool.
From stdpp Require Import gmap strings list pretty.
Import ListNotations.
Close Scope Q_scope.
Local Open Scope Z_scope.

(** ** Python primitives *)

Module Py.

(** The program point at which a division is evaluated; Python's
    [ZeroDivisionError] carries no such tag, it is kept here so that a
    theorem can say which division failed. *)
Inductive site : Type :=
| AtDurationPrint    (* video_processor.py:78  total_frames/fps        *)
| AtRollingFps       (* video_processor.py:120 1.0 / (sum/len)         *)
| AtProgressPercent  (* video_processor.py:145 frame_count/total_frames *)
| AtCurrentFps       (* video_processor.py:146 1.0 / frame_time        *)
| AtSummary.         (* video_processor.py:160-161                     *)

Inductive open_failure : Type :=
| CannotOpenInput     (* video_processor.py:64 *)
| CannotCreateOutput. (* video_processor.py:90 *)

Inductive exn : Type :=
| ValueError (why : open_failure) (path : string)
| ZeroDivisionError (origin : site)
| Raised (what : string).   (* any exception coming out of an external call *)

Definition result (A : Type) : Type := (exn + A)%type.

(** [int(x)] on a float: truncation toward zero. *)
Definition int (q : Q) : Z := Z.quot (Qnum q) (Z.pos (Qden q)).

(** [a / b]: true division, raising on a zero divisor. *)
Definition truediv (origin : site) (a b : Q) : result Q :=
  if Qeq_bool b 0 then inl (ZeroDivisionError origin) else inr (a / b)%Q.

(** [a > b] on numbers. *)
Definition gt (a b : Q) : bool := negb (Qle_bool a b).

Definition sumZ (l : list Z) : Z := fold_left Z.add l 0.
Definition sumQ (l : list Q) : Q := fold_left Qplus l 0%Q.

(** [max(l)] and [min(l)] on a non-empty list; the callers guard the empty
    list, where Python raises. *)
Definition max (l : list Z) : Z :=
  match l with
  | [] => 0
  | x :: t => fold_left Z.max t x
  end.

Definition min (l : list Z) : Z :=
  match l with
  | [] => 0
  | x :: t => fold_left Z.min t x
  end.

(** [l[-n:]]: the last [n] elements, the whole list when it is shorter. *)
Definition last_n {A : Type} (n : nat) (l : list A) : list A :=
  skipn (length l - n)%nat l.

End Py.

(** ** Frames and OpenCV *)

Definition pixel : Type := (Z * Z * Z)%type.      (* B, G, R *)
Definition frame : Type := list (list pixel).       (* rows of pixels *)
Definition point : Type := (Z * Z)%type.
Definition color : Type := (Z * Z * Z)%type.

Inductive font : Type := FONT_HERSHEY_SIMPLEX.
Inductive line_type : Type := LINE_8 | LINE_AA.

(** The drawing primitives of OpenCV, as functions on pixel buffers.  In
    Python they write into the buffer they receive; the in-place versions
    over a store of buffers are [cv2_rectangle] and [cv2_putText] below. *)
Class Cv2 : Type := {
  rectangle : frame -> point -> point -> color -> Z -> frame;
  getTextSize : string -> font -> Q -> Z -> (Z * Z) * Z;
  putText : frame -> string -> point -> font -> Q -> color -> Z -> line_type -> frame
}.

(** Python's fixed-point float formatting, [f"{x:.2f}"] is [format_f 2 x]. *)
Class PyFormat : Type := {
  format_f : nat -> Q -> string
}.

(** A store of pixel buffers: numpy arrays are mutable objects, a variable
    holds a reference (a location). *)
Abbreviation heap := (gmap nat frame).

Definition np_copy (l : nat) (h : heap) : option (heap * nat) :=
  match h !! l with
  | Some f => let l' := fresh (dom h) in Some (<[l' := f]> h, l')
  | None => None
  end.

Definition cv2_rectangle `{Cv2} (l : nat) (p1 p2 : point) (c : color) (t : Z)
    (h : heap) : heap :=
  alter (fun f => rectangle f p1 p2 c t) l h.

Definition cv2_putText `{Cv2} (l : nat) (s : string) (org : point) (fnt : font)
    (scale : Q) (c : color) (t : Z) (lt : line_type) (h : heap) : heap :=
  alter (fun f => putText f s org fnt scale c t lt) l h.

(** ** detector.py *)

Record Detection : Type := {
  bbox : Z * Z * Z * Z;
  confidence : Q;
  class_name : string;
  class_id : Z
}.

(** One box of the model's output: [box.xyxy[0]], [box.conf[0]],
    [box.cls[0]]. *)
Record Box : Type := {
  xyxy : Q * Q * Q * Q;
  conf : Q;
  cls : Q
}.

(** One element of [model.predict(...)]: [boxes] may be [None]. *)
Record YoloResult : Type := {
  boxes : option (list Box)
}.

Module PersonDetector.

Record t : Type := {
  model_predict : frame -> Q -> Q -> list Z -> string -> Py.result (list YoloResult);
  conf_threshold : Q;
  iou_threshold : Q;
  person_class_id : Z;
  device : string
}.

(** [__init__] (detector.py:22-49), the model already loaded. *)
Definition init (cuda_is_available : bool)
    (model : frame -> Q -> Q -> list Z -> string -> Py.result (list YoloResult))
    (conf_threshold iou_threshold : Q) (device : option string) : t :=
  {| model_predict := model;
     conf_threshold := conf_threshold;
     iou_threshold := iou_threshold;
     person_class_id := 0;
     device := match device with
               | None => if cuda_is_available then "cuda" else "cpu"
               | Some d => d
               end |}.

(** The body of [for box in boxes] (detector.py:78-91). *)
Definition box_detection (box : Box) : list Detection :=
  let '(x1, y1, x2, y2) := xyxy box in
  let confidence := conf box in
  let class_id := Py.int (cls box) in
  if Py.gt x2 x1 && Py.gt y2 y1 then
    [ {| bbox := (Py.int x1, Py.int y1, Py.int x2, Py.int y2);
         confidence := confidence;
         class_name := "person";
         class_id := class_id |} ]
  else [].

(** The body of [for result in results] (detector.py:72-91). *)
Definition result_detections (r : YoloResult) : list Detection :=
  match boxes r with
  | None => []
  | Some bs =>
      if (length bs =? 0)%nat then [] else flat_map box_detection bs
  end.

(** detector.py:51-93. *)
Definition detect_persons (self : t) (frame : frame) : Py.result (list Detection) :=
  match model_predict self frame (conf_threshold self) (iou_threshold self)
          [person_class_id self] (device self) with
  | inl e => inl e
  | inr results => inr (flat_map result_detections results)
  end.

Definition bbox_color : color := (0, 255, 0).
Definition text_bg_color : color := (0, 255, 0).
Definition text_color : color := (0, 0, 0).

(** detector.py:145. *)
Definition text_y (y1 text_height : Z) : Z :=
  if y1 - 10 >? text_height then y1 - 10 else y1 + text_height + 10.

(** detector.py:134. *)
Definition label `{PyFormat} (det : Detection) : string :=
  class_name det +:+ ": " +:+ format_f 2 (confidence det).

(** The body of [for det in detections] (detector.py:119-166), writing into
    the buffer at [out]. *)
Definition draw_detection `{Cv2} `{PyFormat} (line_thickness : Z) (font_scale : Q)
    (out : nat) (h : heap) (det : Detection) : heap :=
  let '(x1, y1, x2, y2) := bbox det in
  let h := cv2_rectangle out (x1, y1) (x2, y2) bbox_color line_thickness h in
  let lbl := label det in
  let '((text_width, text_height), baseline) :=
    getTextSize lbl FONT_HERSHEY_SIMPLEX font_scale line_thickness in
  let ty := text_y y1 text_height in
  let h := cv2_rectangle out (x1, ty - text_height - baseline)
             (x1 + text_width + 4, ty + baseline) text_bg_color (-1) h in
  cv2_putText out lbl (x1 + 2, ty - 2) FONT_HERSHEY_SIMPLEX font_scale
    text_color line_thickness LINE_AA h.

(** detector.py:95-168, on the store: [frame] is a reference, the result is
    the new store and the reference returned.  [None] when [frame] is not
    allocated. *)
Definition draw_detections `{Cv2} `{PyFormat} (frame : nat) (detections : list Detection)
    (line_thickness : Z) (font_scale : Q) (h : heap) : option (heap * nat) :=
  match np_copy frame h with
  | None => None
  | Some (h, output_frame) =>
      Some (fold_left (draw_detection line_thickness font_scale output_frame)
              detections h, output_frame)
  end.

(** The pixels [draw_detections] produces, as a function of the input pixels:
    what one detection adds, and all of them in order. *)
Definition paint `{Cv2} `{PyFormat} (line_thickness : Z) (font_scale : Q)
    (f : frame) (det : Detection) : frame :=
  let '(x1, y1, x2, y2) := bbox det in
  let f := rectangle f (x1, y1) (x2, y2) bbox_color line_thickness in
  let lbl := label det in
  let '((text_width, text_height), baseline) :=
    getTextSize lbl FONT_HERSHEY_SIMPLEX font_scale line_thickness in
  let ty := text_y y1 text_height in
  let f := rectangle f (x1, ty - text_height - baseline)
             (x1 + text_width + 4, ty + baseline) text_bg_color (-1) in
  putText f lbl (x1 + 2, ty - 2) FONT_HERSHEY_SIMPLEX font_scale
    text_color line_thickness LINE_AA.

Definition annotated `{Cv2} `{PyFormat} (line_thickness : Z) (font_scale : Q)
    (f : frame) (detections : list Detection) : frame :=
  fold_left (paint line_thickness font_scale) detections f.

End PersonDetector.

(** ** video_processor.py *)

Module VideoProcessor.
Import Py.

Inductive cap_prop : Type :=
| CAP_PROP_FPS
| CAP_PROP_FRAME_WIDTH
| CAP_PROP_FRAME_HEIGHT
| CAP_PROP_FRAME_COUNT.

(** What [process_video] uses of [self.detector]: two calls, each of which
    may raise. *)
Record Detector : Type := {
  detect_persons : frame -> result (list Detection);
  draw_detections : frame -> list Detection -> result frame
}.

(** The arguments of one call of the progress callback:
    progress, frame_count, total_frames, current_fps. *)
Definition progress_args : Type := (Q * Z * Z * Q)%type.

(** A progress callback: [None] when the call returns, [Some e] when it
    raises [e]. *)
Definition callback : Type := progress_args -> option exn.

(** Everything outside the program that one run observes. *)
Record world : Type := {
  cap_isOpened : bool;               (* cv2.VideoCapture(path).isOpened() *)
  cap_get : cap_prop -> Q;           (* cap.get(prop), a float            *)
  cap_frames : list frame;           (* the frames cap.read() yields      *)
  out_isOpened : bool;               (* cv2.VideoWriter(...).isOpened()   *)
  out_write : list frame -> frame -> option exn;
                                     (* out.write(f) after the frames
                                        already written: raises or not    *)
  time_time : nat -> Q               (* the n-th reading of time.time()   *)
}.

Record t : Type := {
  detector : Detector;
  input_path : string;
  output_path : string
}.

(** What a run has done to the outside so far. *)
Record state : Type := {
  cap_released : nat;                (* calls of cap.release()   *)
  out_released : nat;                (* calls of out.release()   *)
  writer_created : bool;             (* cv2.VideoWriter(...) ran *)
  cap_reads : nat;                   (* calls of cap.read()      *)
  clock_reads : nat;                 (* calls of time.time()     *)
  detector_calls : nat;              (* calls of detect_persons  *)
  written : list frame;              (* frames given to out.write, in order *)
  progress_calls : list progress_args (* calls of the callback, in order *)
}.

Definition initial : state :=
  {| cap_released := 0; out_released := 0; writer_created := false;
     cap_reads := 0; clock_reads := 0; detector_calls := 0;
     written := []; progress_calls := [] |}.

(** State and exceptions: a computation returns a value or raises, and
    leaves the state it reached. *)
Definition M (A : Type) : Type := state -> result A * state.

Definition ret {A : Type} (a : A) : M A := fun s => (inr a, s).

Definition raise {A : Type} (e : exn) : M A := fun s => (inl e, s).

Definition bind {A B : Type} (c : M A) (k : A -> M B) : M B :=
  fun s =>
    match c s with
    | (inl e, s') => (inl e, s')
    | (inr a, s') => k a s'
    end.

Definition lift {A : Type} (r : result A) : M A :=
  fun s => (r, s).

Notation "x <- c ;; k" := (bind c (fun x => k))
  (at level 100, c at next level, right associativity).
Notation "c ;; k" := (bind c (fun _ => k))
  (at level 100, right associativity).

(** The effects, one state change each. *)
Definition tick (s : state) : state :=
  {| cap_released := cap_released s; out_released := out_released s;
     writer_created := writer_created s; cap_reads := cap_reads s;
     clock_reads := S (clock_reads s); detector_calls := detector_calls s;
     written := written s; progress_calls := progress_calls s |}.

Definition count_read (s : state) : state :=
  {| cap_released := cap_released s; out_released := out_released s;
     writer_created := writer_created s; cap_reads := S (cap_reads s);
     clock_reads := clock_reads s; detector_calls := detector_calls s;
     written := written s; progress_calls := progress_calls s |}.

Definition count_detect (s : state) : state :=
  {| cap_released := cap_released s; out_released := out_released s;
     writer_created := writer_created s; cap_reads := cap_reads s;
     clock_reads := clock_reads s; detector_calls := S (detector_calls s);
     written := written s; progress_calls := progress_calls s |}.

Definition writer_on (s : state) : state :=
  {| cap_released := cap_released s; out_released := out_released s;
     writer_created := true; cap_reads := cap_reads s;
     clock_reads := clock_reads s; detector_calls := detector_calls s;
     written := written s; progress_calls := progress_calls s |}.

Definition push (f : frame) (s : state) : state :=
  {| cap_released := cap_released s; out_released := out_released s;
     writer_created := writer_created s; cap_reads := cap_reads s;
     clock_reads := clock_reads s; detector_calls := detector_calls s;
     written := written s ++ [f]; progress_calls := progress_calls s |}.

Definition log_calls (l : list progress_args) (s : state) : state :=
  {| cap_released := cap_released s; out_released := out_released s;
     writer_created := writer_created s; cap_reads := cap_reads s;
     clock_reads := clock_reads s; detector_calls := detector_calls s;
     written := written s; progress_calls := progress_calls s ++ l |}.

Definition cap_release (s : state) : state :=
  {| cap_released := S (cap_released s); out_released := out_released s;
     writer_created := writer_created s; cap_reads := cap_reads s;
     clock_reads := clock_reads s; detector_calls := detector_calls s;
     written := written s; progress_calls := progress_calls s |}.

Definition out_release (s : state) : state :=
  {| cap_released := cap_released s; out_released := S (out_released s);
     writer_created := writer_created s; cap_reads := cap_reads s;
     clock_reads := clock_reads s; detector_calls := detector_calls s;
     written := written s; progress_calls := progress_calls s |}.

(** [time.time()] *)
Definition time (w : world) : M Q :=
  fun s => (inr (time_time w (clock_reads s)), tick s).

(** [cap.read()]: only counted here, the frame comes from the recursion of
    [loop] on the frames left. *)
Definition read : M unit :=
  fun s => (inr tt, count_read s).

(** [self.detector.detect_persons(frame)] *)
Definition detect (self : t) (f : frame) : M (list Detection) :=
  fun s => (detect_persons (detector self) f, count_detect s).

(** [cv2.VideoWriter(self.output_path, fourcc, fps, (width, height))] *)
Definition create_writer : M unit :=
  fun s => (inr tt, writer_on s).

(** [out.write(output_frame)] *)
Definition write (w : world) (f : frame) : M unit :=
  fun s =>
    match out_write w (written s) f with
    | Some e => (inl e, s)
    | None => (inr tt, push f s)
    end.

(** [cap.release()] *)
Definition release_cap : M unit :=
  fun s => (inr tt, cap_release s).

(** [out.release()] *)
Definition release_out : M unit :=
  fun s => (inr tt, out_release s).

(** [progress_callback(progress, frame_count, total_frames, current_fps)]:
    the call is recorded, then it returns or raises. *)
Definition invoke (cb : callback) (args : progress_args) : M unit :=
  fun s =>
    match cb args with
    | Some e => (inl e, log_calls [args] s)
    | None => (inr tt, log_calls [args] s)
    end.

(** The local variables of the loop (video_processor.py:95-97). *)
Record locals : Type := {
  frame_count : Z;
  person_count_stats : list Z;
  processing_times : list Q
}.

Definition no_frames : locals :=
  {| frame_count := 0; person_count_stats := []; processing_times := [] |}.

(** video_processor.py:122. *)
Definition fps_text `{PyFormat} (avg_fps : Q) (detections : list Detection) : string :=
  "FPS: " +:+ format_f 1 avg_fps +:+ " | Persons: "
    +:+ pretty (Z.of_nat (length detections)).

(** video_processor.py:119-132: the overlay, on the frame that
    [draw_detections] returned. *)
Definition overlay `{Cv2} `{PyFormat} (show_fps : bool) (processing_times : list Q)
    (detections : list Detection) (output_frame : frame) : M frame :=
  if show_fps && (0 <? length processing_times)%nat then
    let window := last_n 30 processing_times in
    mean <- lift (truediv AtRollingFps (sumQ window)
                    (inject_Z (Z.of_nat (length window)))) ;;
    avg_fps <- lift (truediv AtRollingFps 1%Q mean) ;;
    ret (putText output_frame (fps_text avg_fps detections) (10, 30)
           FONT_HERSHEY_SIMPLEX (7 # 10)%Q (255, 255, 255) 2 LINE_AA)
  else ret output_frame.

(** video_processor.py:144-152. *)
Definition report (progress_callback : option callback) (total_frames : Z)
    (frame_count : Z) (frame_time : Q) : M unit :=
  match progress_callback with
  | Some cb =>
      if frame_count mod 30 =? 0 then
        ratio <- lift (truediv AtProgressPercent (inject_Z frame_count)
                         (inject_Z total_frames)) ;;
        let progress := (ratio * 100)%Q in
        current_fps <- (if gt frame_time 0%Q
                        then lift (truediv AtCurrentFps 1%Q frame_time)
                        else ret 0%Q) ;;
        invoke cb (progress, frame_count, total_frames, current_fps)
      else ret tt
  | None => ret tt
  end.

(** One iteration on a frame that was read (video_processor.py:108-152). *)
Definition loop_body `{Cv2} `{PyFormat} (w : world) (self : t)
    (progress_callback : option callback) (show_fps : bool) (total_frames : Z)
    (frame : frame) (lv : locals) : M locals :=
  frame_start <- time w ;;
  detections <- detect self frame ;;
  let person_count_stats := person_count_stats lv ++ [Z.of_nat (length detections)] in
  output_frame <- lift (draw_detections (detector self) frame detections) ;;
  output_frame <- overlay show_fps (processing_times lv) detections output_frame ;;
  write w output_frame ;;
  now <- time w ;;
  let frame_time := (now - frame_start)%Q in
  let processing_times := processing_times lv ++ [frame_time] in
  let frame_count := frame_count lv + 1 in
  report progress_callback total_frames frame_count frame_time ;;
  ret {| frame_count := frame_count;
         person_count_stats := person_count_stats;
         processing_times := processing_times |}.

(** [while True] (video_processor.py:102-152) on the frames the decoder
    still holds: [cap.read()] takes the first, or reports the end. *)
Fixpoint loop `{Cv2} `{PyFormat} (w : world) (self : t)
    (progress_callback : option callback) (show_fps : bool) (total_frames : Z)
    (frames : list frame) (lv : locals) : M locals :=
  match frames with
  | [] => read ;; ret lv
  | frame :: rest =>
      read ;;
      lv <- loop_body w self progress_callback show_fps total_frames frame lv ;;
      loop w self progress_callback show_fps total_frames rest lv
  end.

(** The iterations alone, on the frames given, stopping before the next
    [cap.read()]: the state a run is in between two iterations. *)
Fixpoint iterations `{Cv2} `{PyFormat} (w : world) (self : t)
    (progress_callback : option callback) (show_fps : bool) (total_frames : Z)
    (frames : list frame) (lv : locals) : M locals :=
  match frames with
  | [] => ret lv
  | frame :: rest =>
      read ;;
      lv <- loop_body w self progress_callback show_fps total_frames frame lv ;;
      iterations w self progress_callback show_fps total_frames rest lv
  end.

Record Summary : Type := {
  total_frames : Z;
  total_time : Q;
  avg_fps : Q;
  avg_persons : Q;
  max_persons : Z;
  min_persons : Z;
  video_resolution : string;
  summary_output_path : string
}.

(** video_processor.py:159-175. *)
Definition finalize (self : t) (width height : Z) (start_time now : Q)
    (lv : locals) : M Summary :=
  let total_time := (now - start_time)%Q in
  avg_fps <- (if gt total_time 0%Q
              then lift (truediv AtSummary (inject_Z (frame_count lv)) total_time)
              else ret 0%Q) ;;
  avg_persons <- (match person_count_stats lv with
                  | [] => ret 0%Q
                  | _ :: _ =>
                      lift (truediv AtSummary
                              (inject_Z (sumZ (person_count_stats lv)))
                              (inject_Z (Z.of_nat (length (person_count_stats lv)))))
                  end) ;;
  let max_persons := match person_count_stats lv with
                     | [] => 0
                     | _ :: _ => max (person_count_stats lv)
                     end in
  let min_persons := match person_count_stats lv with
                     | [] => 0
                     | _ :: _ => min (person_count_stats lv)
                     end in
  ret {| total_frames := frame_count lv;
         total_time := total_time;
         avg_fps := avg_fps;
         avg_persons := avg_persons;
         max_persons := max_persons;
         min_persons := min_persons;
         video_resolution := pretty width +:+ "x" +:+ pretty height;
         summary_output_path := output_path self |}.

(** video_processor.py:60-100: everything before the loop; returns the
    metadata and [start_time]. *)
Definition setup (w : world) (self : t) : M (Z * Z * Z * Q) :=
  if negb (cap_isOpened w) then raise (ValueError CannotOpenInput (input_path self))
  else
    let fps := int (cap_get w CAP_PROP_FPS) in
    let width := int (cap_get w CAP_PROP_FRAME_WIDTH) in
    let height := int (cap_get w CAP_PROP_FRAME_HEIGHT) in
    let total_frames := int (cap_get w CAP_PROP_FRAME_COUNT) in
    (* line 78 prints total_frames/fps *)
    _ <- lift (truediv AtDurationPrint (inject_Z total_frames) (inject_Z fps)) ;;
    create_writer ;;
    if negb (out_isOpened w)
    then raise (ValueError CannotCreateOutput (output_path self))
    else
      start_time <- time w ;;
      ret (width, height, total_frames, start_time).

(** video_processor.py:47-179.  The printing of the final statistics
    (line 177) reads the summary and changes nothing. *)
Definition process_video `{Cv2} `{PyFormat} (w : world) (self : t)
    (progress_callback : option callback) (show_fps : bool) : M Summary :=
  meta <- setup w self ;;
  let '(width, height, total_frames, start_time) := meta in
  lv <- loop w self progress_callback show_fps total_frames (cap_frames w) no_frames ;;
  release_cap ;;
  release_out ;;
  now <- time w ;;
  finalize self width height start_time now lv.

(** A run from the beginning. *)
Definition run `{Cv2} `{PyFormat} (w : world) (self : t)
    (progress_callback : option callback) (show_fps : bool) : result Summary * state :=
  process_video w self progress_callback show_fps initial.

End VideoProcessor.

(** The detector [main.py] passes to [VideoProcessor]: a [PersonDetector],
    called with the default [line_thickness=2] and [font_scale=0.6]; the
    frame it returns holds the pixels [PersonDetector.annotated] computes. *)
Definition person_detector `{Cv2} `{PyFormat} (d : PersonDetector.t)
    : VideoProcessor.Detector :=
  {| VideoProcessor.detect_persons := PersonDetector.detect_persons d;
     VideoProcessor.draw_detections :=
       fun f ds => inr (PersonDetector.annotated 2 (6 # 10)%Q f ds) |}.

(** ** main.py *)

Module Cli.
Import Py.

(** [c * n] on a one-character string: empty when [n <= 0]. *)
Definition times (c : ascii) (n : Z) : string :=
  string_of_list_ascii (repeat c (Z.to_nat n)).

Definition bar_length : Z := 40.

(** main.py:27. *)
Definition filled (progress : Q) : Z :=
  int (inject_Z bar_length * progress / 100)%Q.

(** main.py:28. *)
Definition bar (progress : Q) : string :=
  times " " (filled progress) +:+ times " " (bar_length - filled progress).

(** main.py:13-33, as [process_video] sees it: the call prints one line
    (the bar above between brackets, then the numbers) and returns. *)
Definition progress_callback : VideoProcessor.callback := fun _ => None.

(** The parsed command line (main.py:96); [show_fps_given] says whether
    [--show-fps] was on it. *)
Record Args : Type := {
  input : string;
  output : string;
  model : string;
  conf : Q;
  iou : Q;
  device : option string;
  show_fps_given : bool
}.

(** [args.show_fps]: the option is declared with [action='store_true'] and
    [default=True] (main.py:89-94). *)
Definition show_fps (args : Args) : bool :=
  if show_fps_given args then true else true.

(** What [main] finds outside. *)
Record Os : Type := {
  path_exists : string -> bool;         (* os.path.exists *)
  cuda_is_available : bool;             (* torch.cuda.is_available() *)
  load_model : string -> string ->
               result (frame -> Q -> Q -> list Z -> string -> result (list YoloResult));
                                        (* YOLO(model_name), then .to(device) *)
  mkdir_parent : string -> option exn;  (* Path(p).parent.mkdir(parents=True,
                                           exist_ok=True) *)
  video : string -> string -> VideoProcessor.world
                                        (* the streams behind an input and an
                                           output path *)
}.

(** [PersonDetector.__init__] (detector.py:22-49) with the loading of the
    model. *)
Definition new_detector (os : Os) (model_name : string) (conf_threshold iou_threshold : Q)
    (device : option string) : result PersonDetector.t :=
  let dev := match device with
             | None => if cuda_is_available os then "cuda" else "cpu"
             | Some d => d
             end in
  match load_model os model_name dev with
  | inl e => inl e
  | inr m =>
      inr (PersonDetector.init (cuda_is_available os) m conf_threshold iou_threshold
             device)
  end.

(** [VideoProcessor.__init__] (video_processor.py:21-45). *)
Definition new_processor (os : Os) (detector : VideoProcessor.Detector)
    (input_path output_path : string) : result VideoProcessor.t :=
  if negb (path_exists os input_path) then inl (Raised "FileNotFoundError")
  else
    match mkdir_parent os output_path with
    | Some e => inl e
    | None =>
        inr {| VideoProcessor.detector := detector;
               VideoProcessor.input_path := input_path;
               VideoProcessor.output_path := output_path |}
    end.

(** How far [main] got. *)
Inductive stage : Type :=
| InputMissing                          (* main.py:99-101 *)
| DetectorFailed (e : exn)              (* main.py:123-128 raised *)
| ProcessorFailed (e : exn)             (* main.py:137-141 raised *)
| Processed (r : result VideoProcessor.Summary) (s : VideoProcessor.state).
                                        (* main.py:144-147 ran *)

(** main.py:36-155 after the parsing: the stage reached.  The banner, the
    warning about the extension and [get_model_info] only print. *)
Definition main_stage `{Cv2} `{PyFormat} (os : Os) (args : Args) : stage :=
  if negb (path_exists os (input args)) then InputMissing
  else
    match new_detector os (model args) (conf args) (iou args) (device args) with
    | inl e => DetectorFailed e
    | inr detector =>
        match new_processor os (person_detector detector) (input args) (output args) with
        | inl e => ProcessorFailed e
        | inr processor =>
            let '(r, s) :=
              VideoProcessor.run (video os (input args) (output args)) processor
                (Some progress_callback) (show_fps args) in
            Processed r s
        end
    end.

(** The exit status: [sys.exit(1)] at line 101 and in the handler of
    line 151, 0 when [main] returns. *)
Definition exit_status (st : stage) : Z :=
  match st with
  | Processed (inr _) _ => 0
  | _ => 1
  end.

Definition main `{Cv2} `{PyFormat} (os : Os) (args : Args) : Z :=
  exit_status (main_stage os args).

End Cli.

(** ** Definitions used in the statements *)

Module Spec.
Import Py VideoProcessor.

(** The duration measured for the [k]-th frame ([k] from 1) of a run that
    gets that far: the clock is read once before the loop and twice in each
    iteration. *)
Definition frame_time (w : world) (k : nat) : Q :=
  (time_time w (2 * k) - time_time w (2 * k - 1))%Q.

Definition current_fps (frame_time : Q) : Q :=
  if gt frame_time 0%Q then (1 / frame_time)%Q else 0%Q.

(** The arguments the callback receives at frame count [fc], for a frame
    that took [ft]. *)
Definition progress_args_at (total_frames : Z) (fc : Z) (ft : Q) : progress_args :=
  ((inject_Z fc / inject_Z total_frames * 100)%Q, fc, total_frames, current_fps ft).

(** The calls one iteration makes when it ends with frame count [fc]. *)
Definition calls_at (progress_callback : option callback) (total_frames : Z)
    (fc : Z) (ft : Q) : list progress_args :=
  match progress_callback with
  | Some _ => if fc mod 30 =? 0 then [progress_args_at total_frames fc ft] else []
  | None => []
  end.

(** The calls of [n] iterations in a row, the first one starting at frame
    count [fc] with the clock read [clk] times. *)
Fixpoint calls_from (w : world) (progress_callback : option callback)
    (total_frames : Z) (fc : Z) (clk : nat) (n : nat) : list progress_args :=
  match n with
  | O => []
  | S n' =>
      calls_at progress_callback total_frames (fc + 1)
        (time_time w (S clk) - time_time w clk)%Q
      ++ calls_from w progress_callback total_frames (fc + 1) (S (S clk)) n'
  end.

(** A relation between the state before and after that every outcome of a
    computation respects, the raising ones too. *)
Definition keeps (R : state -> state -> Prop) {A : Type} (c : M A) : Prop :=
  forall s r s', c s = (r, s') -> R s s'.

(** No handle was released in between. *)
Definition untouched (s s' : state) : Prop :=
  cap_released s' = cap_released s /\
  out_released s' = out_released s.

(** The callback was not called in between. *)
Definition same_calls (s s' : state) : Prop :=
  progress_calls s' = progress_calls s.

(** The metadata a run reads (video_processor.py:69-72). *)
Definition meta_fps (w : world) : Z := int (cap_get w CAP_PROP_FPS).
Definition meta_width (w : world) : Z := int (cap_get w CAP_PROP_FRAME_WIDTH).
Definition meta_height (w : world) : Z := int (cap_get w CAP_PROP_FRAME_HEIGHT).
Definition meta_total (w : world) : Z := int (cap_get w CAP_PROP_FRAME_COUNT).

(** The call made at the [j]-th multiple of 30. *)
Definition nth_call (w : world) (total_frames : Z) (j : nat) : progress_args :=
  progress_args_at total_frames (Z.of_nat (30 * j)) (frame_time w (30 * j)).

(** The number of detections on a frame. *)
Definition detection_count (self : t) (f : frame) : Z :=
  match detect_persons (detector self) f with
  | inr ds => Z.of_nat (length ds)
  | inl _ => 0
  end.

(** Nothing outside the program raises: the detector answers, the encoder
    accepts every frame, and the clock moves forward between two readings
    (so that the rolling average of the overlay is not 0) unless the
    overlay is off. *)
Definition nothing_else_raises (w : world) (self : t) (show_fps : bool) : Prop :=
  (forall f, exists ds, detect_persons (detector self) f = inr ds) /\
  (forall f ds, exists o, draw_detections (detector self) f ds = inr o) /\
  (forall l f, out_write w l f = None) /\
  (show_fps = false \/ forall k, (time_time w k < time_time w (S k))%Q).

(** A box that is a box: left of its right edge, above its bottom edge. *)
Definition valid_bbox (d : Detection) : Prop :=
  let '(x1, y1, x2, y2) := bbox d in x1 < x2 /\ y1 < y2.

(** Both handles released exactly once. *)
Definition released_once (s : state) : Prop :=
  cap_released s = 1%nat /\ out_released s = 1%nat.

Definition released_never (s : state) : Prop :=
  cap_released s = 0%nat /\ out_released s = 0%nat.

Definition current (a : progress_args) : Z := snd (fst (fst a)).
Definition percent (a : progress_args) : Q := fst (fst (fst a)).

End Spec.

(** ** Concrete inputs *)

Module Demo.
Import Py VideoProcessor.

(** A small stand-in for OpenCV: a rectangle marks its two corners, a text
    marks its origin, every label is 13 pixels high. *)
Definition set_pixel (p : point) (c : color) (f : frame) : frame :=
  let '(x, y) := p in
  if (0 <=? x) && (0 <=? y)
  then alter (alter (fun _ => c) (Z.to_nat x)) (Z.to_nat y) f
  else f.

Definition cv2 : Cv2 :=
  {| rectangle := fun f p1 p2 c _ => set_pixel p2 c (set_pixel p1 c f);
     getTextSize := fun s _ _ _ => ((10 * Z.of_nat (String.length s), 13), 5);
     putText := fun f _ org _ _ c _ _ => set_pixel org c f |}.

Definition fmt : PyFormat :=
  {| format_f := fun _ q => pretty (int q) |}.

(** A 2x2 frame of one grey level. *)
Definition solid (v : Z) : frame :=
  [[(v, v, v); (v, v, v)]; [(v, v, v); (v, v, v)]].

Definition grey (f : frame) : Z :=
  match f with
  | ((v, _, _) :: _) :: _ => v
  | _ => 0
  end.

Definition fixed_box : Box :=
  {| xyxy := (0, 0, 1, 1)%Q; conf := (9 # 10)%Q; cls := 0%Q |}.

(** A model that sees one person on the frames of even grey level. *)
Definition even_model (f : frame) (_ _ : Q) (_ : list Z) (_ : string)
    : result (list YoloResult) :=
  if Z.even (grey f) then inr [ {| boxes := Some [fixed_box] |} ]
  else inr [ {| boxes := None |} ].

(** A model that returns one box less than a pixel wide. *)
Definition thin_box : Box :=
  {| xyxy := (102 # 10, 5, 107 # 10, 9)%Q; conf := (9 # 10)%Q; cls := 0%Q |}.

Definition thin_model (_ : frame) (_ _ : Q) (_ : list Z) (_ : string)
    : result (list YoloResult) :=
  inr [ {| boxes := Some [thin_box] |} ].

Definition even_detector : PersonDetector.t :=
  PersonDetector.init false even_model (3 # 10)%Q (45 # 100)%Q None.

Definition thin_detector : PersonDetector.t :=
  PersonDetector.init false thin_model (3 # 10)%Q (45 # 100)%Q None.

Definition processor : t :=
  {| detector := @person_detector cv2 fmt even_detector;
     input_path := "in.mp4";
     output_path := "out/out.mp4" |}.

(** A detector that raises on the frame of grey level [g]. *)
Definition failing_at (g : Z) : t :=
  {| detector :=
       {| detect_persons := fun f =>
            if grey f =? g then inl (Raised "RuntimeError") else inr [];
          draw_detections := fun f _ => inr f |};
     input_path := "in.mp4";
     output_path := "out/out.mp4" |}.

Definition failing_processor : t := failing_at 2.

Definition metadata (fps total : Q) (p : cap_prop) : Q :=
  match p with
  | CAP_PROP_FPS => fps
  | CAP_PROP_FRAME_WIDTH => 2%Q
  | CAP_PROP_FRAME_HEIGHT => 2%Q
  | CAP_PROP_FRAME_COUNT => total
  end.

(** A video of [n] frames of grey levels 0, 1, ..., whose metadata says
    [fps] and [total]; the clock advances by a tenth of a second at each
    reading. *)
Definition video (n : nat) (fps total : Q) (encoder_opens : bool) : world :=
  {| cap_isOpened := true;
     cap_get := metadata fps total;
     cap_frames := map (fun i => solid (Z.of_nat i)) (seq 0 n);
     out_isOpened := encoder_opens;
     out_write := fun _ _ => None;
     time_time := fun k => (Z.of_nat k # 10)%Q |}.

Definition quiet : callback := fun _ => None.

Abbreviation run := (@VideoProcessor.run cv2 fmt).

(** The videos used below: ten frames; ten frames and an encoder that does
    not open; thirty frames announced as none; thirty frames; sixty frames;
    no frame; no frame and a frame rate of 0. *)
Definition ten : world := video 10 25 10 true.
Definition ten_no_encoder : world := video 10 25 10 false.
Definition thirty_unannounced : world := video 30 25 0 true.
Definition thirty : world := video 30 25 30 true.
Definition sixty : world := video 60 25 60 true.
Definition empty : world := video 0 25 0 true.
Definition empty_no_rate : world := video 0 0 0 true.

(** The loop of [ten] after three iterations. *)
Definition ten_after_3 : locals * state :=
  Eval vm_compute in
    match @iterations cv2 fmt ten processor None true 10
            (firstn 3 (cap_frames ten)) no_frames (tick (writer_on initial)) with
    | (inr lv, s) => (lv, s)
    | (inl _, s) => (no_frames, s)
    end.

(** The outcomes of the runs. *)
Definition ten_summary : Summary :=
  {| total_frames := 10;
     total_time := (210 # 100)%Q;
     avg_fps := (1000 # 210)%Q;
     avg_persons := (5 # 10)%Q;
     max_persons := 1;
     min_persons := 0;
     video_resolution := "2x2";
     summary_output_path := "out/out.mp4" |}.

Definition ten_final : state :=
  Eval vm_compute in snd (run ten processor None true).

Definition sixty_summary : Summary :=
  {| total_frames := 60;
     total_time := (1210 # 100)%Q;
     avg_fps := (6000 # 1210)%Q;
     avg_persons := (30 # 60)%Q;
     max_persons := 1;
     min_persons := 0;
     video_resolution := "2x2";
     summary_output_path := "out/out.mp4" |}.

Definition sixty_final : state :=
  Eval vm_compute in snd (run sixty processor (Some quiet) true).

Definition thirty_final : state :=
  Eval vm_compute in snd (run thirty_unannounced processor (Some quiet) true).

(** A detection near the top of the image and one with room above it. *)
Definition near_top : Detection :=
  {| bbox := (3, 5, 8, 40); confidence := (9 # 10)%Q;
     class_name := "person"; class_id := 0 |}.

Definition lower_down : Detection :=
  {| bbox := (3, 50, 8, 90); confidence := (9 # 10)%Q;
     class_name := "person"; class_id := 0 |}.

(** A store with one frame. *)
Definition one_frame : heap := {[ 0%nat := solid 7 ]}.

End Demo.

(** ** Further definitions used in the statements *)

Module Behaviour.
Import Py VideoProcessor.

(** The boxes of a prediction, result after result. *)
Definition all_boxes (results : list YoloResult) : list Box :=
  flat_map (fun r => match boxes r with Some bs => bs | None => [] end) results.

(** The check of detector.py:85, on the float corners. *)
Definition passes (box : Box) : bool :=
  let '(x1, y1, x2, y2) := xyxy box in gt x2 x1 && gt y2 y1.

(** The record of detector.py:86-91. *)
Definition record_of (box : Box) : Detection :=
  let '(x1, y1, x2, y2) := xyxy box in
  {| bbox := (int x1, int y1, int x2, int y2);
     confidence := conf box;
     class_name := "person";
     class_id := int (cls box) |}.

(** What the detector makes of a frame when neither call raises. *)
Definition annotate (self : t) (f : frame) : frame :=
  match detect_persons (detector self) f with
  | inr ds =>
      match draw_detections (detector self) f ds with
      | inr o => o
      | inl _ => f
      end
  | inl _ => f
  end.

(** A state with the record of the progress calls wiped. *)
Definition without_calls (s : state) : state :=
  {| cap_released := cap_released s; out_released := out_released s;
     writer_created := writer_created s; cap_reads := cap_reads s;
     clock_reads := clock_reads s; detector_calls := detector_calls s;
     written := written s; progress_calls := [] |}.

(** Two computations agree when, from two states that differ at most in
    the record of the progress calls, they have the same outcome and leave
    two states that differ at most there. *)
Definition agree {A : Type} (c1 c2 : M A) : Prop :=
  forall sa sb,
    without_calls sa = without_calls sb ->
    fst (c1 sa) = fst (c2 sb) /\
    without_calls (snd (c1 sa)) = without_calls (snd (c2 sb)).

(** The frames written so far are still there, in front. *)
Definition appended (s s' : state) : Prop :=
  exists more, written s' = written s ++ more.

End Behaviour.

(** ** Further concrete inputs *)

Module Cases.
Import Py VideoProcessor.

(** A decoder that does not open. *)
Definition no_decoder : world :=
  {| cap_isOpened := false;
     cap_get := cap_get Demo.ten;
     cap_frames := cap_frames Demo.ten;
     out_isOpened := true;
     out_write := out_write Demo.ten;
     time_time := time_time Demo.ten |}.

(** The ten frames under a clock that does not move. *)
Definition frozen : world :=
  {| cap_isOpened := true;
     cap_get := cap_get Demo.ten;
     cap_frames := cap_frames Demo.ten;
     out_isOpened := true;
     out_write := out_write Demo.ten;
     time_time := fun _ => 0%Q |}.

(** A callback that raises. *)
Definition grumpy : callback := fun _ => Some (Raised "RuntimeError").

(** The run of the ten frames without the FPS line. *)
Definition ten_plain : Summary * state :=
  Eval vm_compute in
    match Demo.run Demo.ten Demo.processor None false with
    | (inr sm, s) => (sm, s)
    | (inl _, s) => (Demo.ten_summary, s)
    end.

(** The ten frames, two iterations done, with the detector that raises on
    the third frame. *)
Definition ten_after_2 : locals * state :=
  Eval vm_compute in
    match @iterations Demo.cv2 Demo.fmt Demo.ten Demo.failing_processor None true 10
            (firstn 2 (cap_frames Demo.ten)) no_frames (tick (writer_on initial)) with
    | (inr lv, s) => (lv, s)
    | (inl _, s) => (no_frames, s)
    end.

(** The thirty frames with the callback that raises. *)
Definition thirty_grumpy : result Summary * state :=
  Eval vm_compute in Demo.run Demo.thirty Demo.processor (Some grumpy) true.

(** The sixty frames without a callback. *)
Definition sixty_silent : result Summary * state :=
  Eval vm_compute in Demo.run Demo.sixty Demo.processor None true.

(** What the detector of [Demo.processor] makes of the first two frames. *)
Definition first_annotated : frame :=
  Eval vm_compute in
    @PersonDetector.annotated Demo.cv2 Demo.fmt 2 (6 # 10)%Q (Demo.solid 0)
      [ {| bbox := (0, 0, 1, 1); confidence := (9 # 10)%Q;
           class_name := "person"; class_id := 0 |} ].

(** A machine on which everything is in place: the input file [in.mp4],
    a model that loads, the ten frames behind every pair of paths. *)
Definition os : Cli.Os :=
  {| Cli.path_exists := fun p => String.eqb p "in.mp4";
     Cli.cuda_is_available := false;
     Cli.load_model := fun _ _ => inr Demo.even_model;
     Cli.mkdir_parent := fun _ => None;
     Cli.video := fun _ _ => Demo.ten |}.

(** The same machine with the thirty frames announced as none. *)
Definition os_unannounced : Cli.Os :=
  {| Cli.path_exists := fun p => String.eqb p "in.mp4";
     Cli.cuda_is_available := false;
     Cli.load_model := fun _ _ => inr Demo.even_model;
     Cli.mkdir_parent := fun _ => None;
     Cli.video := fun _ _ => Demo.thirty_unannounced |}.

Definition args : Cli.Args :=
  {| Cli.input := "in.mp4";
     Cli.output := "out/out.mp4";
     Cli.model := "yolo26x.pt";
     Cli.conf := (3 # 10)%Q;
     Cli.iou := (45 # 100)%Q;
     Cli.device := None;
     Cli.show_fps_given := false |}.

Definition args_missing : Cli.Args :=
  {| Cli.input := "absent.mp4";
     Cli.output := "out/out.mp4";
     Cli.model := "yolo26x.pt";
     Cli.conf := (3 # 10)%Q;
     Cli.iou := (45 # 100)%Q;
     Cli.device := None;
     Cli.show_fps_given := true |}.

End Cases.

(** * Verification *)

Import Py VideoProcessor Spec.

(** ** The monad *)

Lemma bind_inv {A B : Type} (c : M A) (k : A -> M B) s r s' :
  bind c k s = (r, s') ->
  (exists e, c s = (inl e, s') /\ r = inl e) \/
  (exists a s1, c s = (inr a, s1) /\ k a s1 = (r, s')).
Proof.
  unfold bind. destruct (c s) as [[e | a] s1]; intros Hk.
  - left. exists e. inversion Hk; subst. split; reflexivity.
  - right. exists a, s1. split; [reflexivity | exact Hk].
Qed.

Lemma bind_inr {A B : Type} (c : M A) (k : A -> M B) s b s' :
  bind c k s = (inr b, s') ->
  exists a s1, c s = (inr a, s1) /\ k a s1 = (inr b, s').
Proof.
  intros Hk. apply bind_inv in Hk as [(e & _ & He) | Hk]; [discriminate He | exact Hk].
Qed.

Section Keeps.
Variable R : state -> state -> Prop.
Hypothesis R_refl : forall s, R s s.
Hypothesis R_trans : forall s1 s2 s3, R s1 s2 -> R s2 s3 -> R s1 s3.

Lemma keeps_ret {A : Type} (a : A) : keeps R (ret a).
Proof. intros s r s' Hc. inversion Hc; subst. apply R_refl. Qed.

Lemma keeps_raise {A : Type} (e : exn) : keeps R (@raise A e).
Proof. intros s r s' Hc. inversion Hc; subst. apply R_refl. Qed.

Lemma keeps_lift {A : Type} (x : result A) : keeps R (lift x).
Proof. intros s r s' Hc. inversion Hc; subst. apply R_refl. Qed.

Lemma keeps_bind {A B : Type} (c : M A) (k : A -> M B) :
  keeps R c -> (forall a, keeps R (k a)) -> keeps R (bind c k).
Proof.
  intros Hc Hk s r s' Hrun.
  apply bind_inv in Hrun as [(e & Hrun & _) | (a & s1 & Hrun & Hrest)].
  - exact (Hc _ _ _ Hrun).
  - exact (R_trans _ _ _ (Hc _ _ _ Hrun) (Hk _ _ _ _ Hrest)).
Qed.

End Keeps.

(** ** One iteration *)

Section Pipeline.
Context `{Cv2} `{PyFormat}.
Variables (w : world) (self : t) (progress_callback : option callback)
  (show_fps : bool) (total : Z).

Lemma overlay_state times dets o s r s' :
  overlay show_fps times dets o s = (r, s') -> s' = s.
Proof.
  unfold overlay. destruct (show_fps && _); [| intros Hr; inversion Hr; reflexivity].
  unfold bind, lift, ret.
  destruct (truediv AtRollingFps (sumQ _) _); [intros Hr; inversion Hr; reflexivity |].
  destruct (truediv AtRollingFps 1%Q _); intros Hr; inversion Hr; reflexivity.
Qed.

Lemma report_inr fc ft s u s' :
  report progress_callback total fc ft s = (inr u, s') ->
  s' = log_calls (calls_at progress_callback total fc ft) s \/
  (calls_at progress_callback total fc ft = [] /\ s' = s).
Proof.
  unfold report, calls_at. destruct progress_callback as [cb |].
  - destruct (fc mod 30 =? 0).
    + intros Hr. left.
      apply bind_inr in Hr as (ratio & s1 & Hratio & Hr).
      apply bind_inr in Hr as (fps & s2 & Hfps & Hr).
      unfold lift in Hratio. inversion Hratio; subst s1; clear Hratio.
      unfold truediv in H2. destruct (Qeq_bool (inject_Z total) 0); [discriminate |].
      inversion H2; subst ratio; clear H2.
      assert (fps = current_fps ft /\ s2 = s) as [-> ->].
      { unfold current_fps. destruct (gt ft 0).
        - unfold lift, truediv in Hfps. destruct (Qeq_bool ft 0); inversion Hfps; auto.
        - inversion Hfps; auto. }
      unfold invoke in Hr. unfold progress_args_at.
      destruct (cb _); inversion Hr; reflexivity.
    + intros Hr; inversion Hr; auto.
  - intros Hr; inversion Hr; auto.
Qed.

Lemma loop_body_ok f lv s lv' s' :
  loop_body w self progress_callback show_fps total f lv s = (inr lv', s') ->
  let ft := (time_time w (S (clock_reads s)) - time_time w (clock_reads s))%Q in
  lv' = {| frame_count := frame_count lv + 1;
           person_count_stats := person_count_stats lv ++ [detection_count self f];
           processing_times := processing_times lv ++ [ft] |} /\
  (exists out, written s' = written s ++ [out]) /\
  clock_reads s' = S (S (clock_reads s)) /\
  cap_reads s' = cap_reads s /\
  detector_calls s' = S (detector_calls s) /\
  progress_calls s' =
    progress_calls s ++ calls_at progress_callback total (frame_count lv + 1) ft.
Proof.
  unfold loop_body. intros Hrun.
  apply bind_inr in Hrun as (frame_start & s1 & Ht1 & Hrun).
  apply bind_inr in Hrun as (dets & s2 & Hdet & Hrun).
  apply bind_inr in Hrun as (o1 & s3 & Hdraw & Hrun).
  apply bind_inr in Hrun as (o2 & s4 & Hover & Hrun).
  apply bind_inr in Hrun as (u & s5 & Hwrite & Hrun).
  apply bind_inr in Hrun as (now & s6 & Ht2 & Hrun).
  apply bind_inr in Hrun as (u' & s7 & Hrep & Hrun).
  inversion Ht1; subst frame_start s1; clear Ht1.
  unfold detect in Hdet. inversion Hdet as [[Hd Hs2]]; subst s2; clear Hdet.
  unfold lift in Hdraw. inversion Hdraw; subst s3; clear Hdraw.
  apply overlay_state in Hover; subst s4.
  unfold write in Hwrite. destruct (out_write w _ o2); [discriminate |].
  inversion Hwrite; subst s5; clear Hwrite.
  inversion Ht2; subst now s6; clear Ht2.
  inversion Hrun; subst lv' s'; clear Hrun.
  unfold detection_count. rewrite Hd. simpl.
  split; [reflexivity |].
  apply report_inr in Hrep as [-> | [-> ->]]; simpl;
    repeat split; eauto using app_nil_r.
Qed.


(** ** What the loop leaves alone *)

Section KeepsLoop.
Variable R : state -> state -> Prop.
Hypothesis R_refl : forall s, R s s.
Hypothesis R_trans : forall s1 s2 s3, R s1 s2 -> R s2 s3 -> R s1 s3.
Hypothesis R_tick : forall s, R s (tick s).
Hypothesis R_read : forall s, R s (count_read s).
Hypothesis R_detect : forall s, R s (count_detect s).
Hypothesis R_push : forall f s, R s (push f s).
Hypothesis R_report :
  forall fc ft, keeps R (report progress_callback total fc ft).

Ltac keeps_step :=
  first
    [ apply (keeps_ret R R_refl)
    | apply (keeps_raise R R_refl)
    | apply (keeps_lift R R_refl)
    | apply (keeps_bind R R_trans); [| intros ?] ].

Lemma keeps_time : keeps R (time w).
Proof. intros s r s' Hc. inversion Hc; subst. apply R_tick. Qed.

Lemma keeps_read : keeps R read.
Proof. intros s r s' Hc. inversion Hc; subst. apply R_read. Qed.

Lemma keeps_detect f : keeps R (detect self f).
Proof. intros s r s' Hc. inversion Hc; subst. apply R_detect. Qed.

Lemma keeps_write f : keeps R (write w f).
Proof.
  intros s r s' Hc. unfold write in Hc.
  destruct (out_write w _ f); inversion Hc; subst; [apply R_refl | apply R_push].
Qed.

Lemma keeps_overlay times dets o : keeps R (overlay show_fps times dets o).
Proof. intros s r s' Hc. apply overlay_state in Hc. subst. apply R_refl. Qed.

Lemma keeps_loop_body f lv :
  keeps R (loop_body w self progress_callback show_fps total f lv).
Proof.
  unfold loop_body.
  keeps_step; [apply keeps_time |].
  keeps_step; [apply keeps_detect |].
  keeps_step; [keeps_step |].
  keeps_step; [apply keeps_overlay |].
  keeps_step; [apply keeps_write |].
  keeps_step; [apply keeps_time |].
  keeps_step; [apply R_report | keeps_step].
Qed.

Lemma keeps_loop frames :
  forall lv, keeps R (loop w self progress_callback show_fps total frames lv).
Proof.
  induction frames as [| f rest IH]; intros lv; simpl.
  - keeps_step; [apply keeps_read | keeps_step].
  - keeps_step; [apply keeps_read |].
    keeps_step; [apply keeps_loop_body | apply IH].
Qed.

End KeepsLoop.

Lemma untouched_refl s : untouched s s.
Proof. split; reflexivity. Qed.

Lemma untouched_trans s1 s2 s3 : untouched s1 s2 -> untouched s2 s3 -> untouched s1 s3.
Proof. unfold untouched. intros (-> & ->) (-> & ->). split; reflexivity. Qed.

Lemma untouched_report fc ft :
  keeps untouched (report progress_callback total fc ft).
Proof.
  unfold report. destruct progress_callback as [cb |];
    [| apply (keeps_ret _ untouched_refl)].
  destruct (fc mod 30 =? 0); [| apply (keeps_ret _ untouched_refl)].
  apply (keeps_bind _ untouched_trans); [apply (keeps_lift _ untouched_refl) | intros ratio].
  apply (keeps_bind _ untouched_trans); [| intros fps].
  - destruct (gt ft 0);
      [apply (keeps_lift _ untouched_refl) | apply (keeps_ret _ untouched_refl)].
  - intros s r s' Hc. unfold invoke in Hc.
    destruct (cb _); inversion Hc; subst; split; reflexivity.
Qed.

(** No iteration releases a handle, however it ends. *)
Lemma loop_untouched frames lv :
  keeps untouched (loop w self progress_callback show_fps total frames lv).
Proof.
  apply keeps_loop;
    first [ exact untouched_refl | exact untouched_trans | exact untouched_report
          | intros; split; reflexivity ].
Qed.

(** The callback is never reached when the metadata says there are no
    frames: the percentage is computed first, and its division raises. *)
Lemma silent_report_total_0 fc ft :
  total = 0 -> keeps same_calls (report progress_callback total fc ft).
Proof.
  intros ->. unfold report. destruct progress_callback as [cb |];
    [| intros s r s' Hc; inversion Hc; reflexivity].
  destruct (fc mod 30 =? 0); [| intros s r s' Hc; inversion Hc; reflexivity].
  intros s r s' Hc. unfold bind, lift, truediv in Hc. simpl in Hc.
  inversion Hc; reflexivity.
Qed.

Lemma loop_silent_total_0 frames lv :
  total = 0 ->
  keeps same_calls (loop w self progress_callback show_fps total frames lv).
Proof.
  intros Htotal. apply keeps_loop;
    first [ intros; reflexivity
          | intros fc ft; apply silent_report_total_0; exact Htotal
          | idtac ].
  unfold same_calls. intros s1 s2 s3 -> ->. reflexivity.
Qed.

Lemma loop_silent_none frames lv :
  progress_callback = None ->
  keeps same_calls (loop w self progress_callback show_fps total frames lv).
Proof.
  intros Hnone. apply keeps_loop;
    first [ intros; reflexivity
          | intros fc ft s r s' Hc; rewrite Hnone in Hc; inversion Hc; reflexivity
          | idtac ].
  unfold same_calls. intros s1 s2 s3 -> ->. reflexivity.
Qed.

(** ** The loop *)

Lemma iterations_ok frames :
  forall lv s lv' s',
  iterations w self progress_callback show_fps total frames lv s = (inr lv', s') ->
  frame_count lv' = frame_count lv + Z.of_nat (length frames) /\
  person_count_stats lv' =
    person_count_stats lv ++ map (detection_count self) frames /\
  length (written s') = (length (written s) + length frames)%nat /\
  clock_reads s' = (clock_reads s + 2 * length frames)%nat /\
  cap_reads s' = (cap_reads s + length frames)%nat /\
  detector_calls s' = (detector_calls s + length frames)%nat /\
  progress_calls s' =
    progress_calls s ++
    calls_from w progress_callback total (frame_count lv) (clock_reads s) (length frames).
Proof.
  induction frames as [| f rest IH]; intros lv s lv' s' Hrun; simpl in Hrun.
  - inversion Hrun; subst. simpl.
    rewrite Z.add_0_r, !app_nil_r, !Nat.add_0_r. repeat split.
  - apply bind_inr in Hrun as ([] & s1 & Hread & Hrun).
    apply bind_inr in Hrun as (lv1 & s2 & Hbody & Hrun).
    inversion Hread; subst s1; clear Hread.
    apply loop_body_ok in Hbody as (Hlv1 & (out & Hw) & Hclk & Hreads & Hdet & Hcalls).
    apply IH in Hrun as (Hfc & Hstats & Hw' & Hclk' & Hreads' & Hdet' & Hcalls').
    subst lv1. simpl in Hfc, Hstats, Hcalls', Hw, Hclk, Hreads, Hdet, Hcalls.
    rewrite Hfc, Hstats, Hw', Hclk', Hreads', Hdet', Hcalls', Hw, Hclk, Hreads, Hdet, Hcalls.
    rewrite length_app. simpl length. rewrite <- !app_assoc. simpl.
    repeat split; lia.
Qed.

Lemma loop_iterations frames :
  forall lv s,
  loop w self progress_callback show_fps total frames lv s =
  bind (iterations w self progress_callback show_fps total frames lv)
       (fun lv' => bind read (fun _ => ret lv')) s.
Proof.
  induction frames as [| f rest IH]; intros lv s; simpl.
  - reflexivity.
  - unfold bind, read. cbn beta iota.
    destruct (loop_body _ _ _ _ _ f lv (count_read s)) as [[e | lv1] s1];
      [reflexivity |].
    rewrite IH. reflexivity.
Qed.

Lemma loop_app pre post :
  forall lv s,
  loop w self progress_callback show_fps total (pre ++ post) lv s =
  bind (iterations w self progress_callback show_fps total pre lv)
       (fun lv' => loop w self progress_callback show_fps total post lv') s.
Proof.
  induction pre as [| f rest IH]; intros lv s; simpl.
  - reflexivity.
  - unfold bind, read. cbn beta iota.
    destruct (loop_body _ _ _ _ _ f lv (count_read s)) as [[e | lv1] s1];
      [reflexivity |].
    rewrite IH. reflexivity.
Qed.

Lemma loop_ok frames lv s lv' s' :
  loop w self progress_callback show_fps total frames lv s = (inr lv', s') ->
  frame_count lv' = frame_count lv + Z.of_nat (length frames) /\
  person_count_stats lv' =
    person_count_stats lv ++ map (detection_count self) frames /\
  length (written s') = (length (written s) + length frames)%nat /\
  clock_reads s' = (clock_reads s + 2 * length frames)%nat /\
  cap_reads s' = S (cap_reads s + length frames) /\
  detector_calls s' = (detector_calls s + length frames)%nat /\
  progress_calls s' =
    progress_calls s ++
    calls_from w progress_callback total (frame_count lv) (clock_reads s) (length frames).
Proof.
  rewrite loop_iterations. intros Hrun.
  apply bind_inr in Hrun as (lv1 & s1 & Hit & Hrun).
  inversion Hrun; subst lv1 s'; clear Hrun.
  apply iterations_ok in Hit as (Hfc & Hstats & Hw & Hclk & Hreads & Hdet & Hcalls).
  simpl. rewrite Hreads. repeat split; assumption.
Qed.

End Pipeline.

(** ** Before and after the loop *)

Lemma gt_0_not_zero q : gt q 0%Q = true -> Qeq_bool q 0 = false.
Proof.
  unfold gt. intros Hgt. apply negb_true_iff in Hgt.
  destruct (Qeq_bool q 0) eqn:Heq; [| reflexivity].
  apply Qeq_bool_iff in Heq. assert (Hle : Qle_bool q 0 = true).
  { apply Qle_bool_iff. rewrite Heq. apply Qle_refl. }
  congruence.
Qed.

Lemma length_not_zero (n : nat) :
  Qeq_bool (inject_Z (Z.of_nat (S n))) 0 = false.
Proof.
  destruct (Qeq_bool _ 0) eqn:Heq; [| reflexivity].
  apply Qeq_bool_iff in Heq. unfold Qeq, inject_Z in Heq. simpl in Heq. lia.
Qed.

Section Run.
Context `{Cv2} `{PyFormat}.
Variables (w : world) (self : t) (progress_callback : option callback)
  (show_fps : bool).

Lemma setup_inv s r s' :
  setup w self s = (r, s') ->
  (r = inl (ValueError CannotOpenInput (input_path self)) /\
   cap_isOpened w = false /\ s' = s) \/
  (r = inl (ZeroDivisionError AtDurationPrint) /\
   cap_isOpened w = true /\ meta_fps w = 0 /\ s' = s) \/
  (r = inl (ValueError CannotCreateOutput (output_path self)) /\
   cap_isOpened w = true /\ meta_fps w <> 0 /\ out_isOpened w = false /\
   s' = writer_on s) \/
  (r = inr (meta_width w, meta_height w, meta_total w, time_time w (clock_reads s)) /\
   cap_isOpened w = true /\ meta_fps w <> 0 /\ out_isOpened w = true /\
   s' = tick (writer_on s)).
Proof.
  unfold setup, meta_fps. destruct (cap_isOpened w); simpl.
  2:{ intros Hr; inversion Hr; subst. left. repeat split. }
  unfold bind, lift, truediv.
  destruct (Qeq_bool (inject_Z (int (cap_get w CAP_PROP_FPS))) 0) eqn:Hfps.
  - intros Hr; inversion Hr; subst. right; left. repeat split.
    apply Qeq_bool_iff in Hfps. unfold Qeq in Hfps. simpl in Hfps. lia.
  - assert (Hnz : int (cap_get w CAP_PROP_FPS) <> 0).
    { intros Hz. rewrite Hz in Hfps. discriminate Hfps. }
    unfold create_writer. destruct (out_isOpened w); simpl.
    + intros Hr; inversion Hr; subst. right; right; right. repeat split; assumption.
    + intros Hr; inversion Hr; subst. right; right; left. repeat split; assumption.
Qed.

Lemma finalize_total width height start_time now lv s :
  exists sm,
    finalize self width height start_time now lv s = (inr sm, s) /\
    total_frames sm = frame_count lv /\
    total_time sm = (now - start_time)%Q /\
    avg_fps sm = (if gt (now - start_time) 0%Q
                  then (inject_Z (frame_count lv) / (now - start_time))%Q
                  else 0%Q) /\
    avg_persons sm = match person_count_stats lv with
                     | [] => 0%Q
                     | _ :: _ =>
                         (inject_Z (sumZ (person_count_stats lv)) /
                          inject_Z (Z.of_nat (length (person_count_stats lv))))%Q
                     end /\
    max_persons sm = match person_count_stats lv with
                     | [] => 0
                     | _ :: _ => max (person_count_stats lv)
                     end /\
    min_persons sm = match person_count_stats lv with
                     | [] => 0
                     | _ :: _ => min (person_count_stats lv)
                     end.
Proof.
  unfold finalize, bind, lift, ret, truediv.
  destruct (gt (now - start_time) 0%Q) eqn:Hgt.
  - rewrite (gt_0_not_zero _ Hgt).
    destruct (person_count_stats lv) as [| c cs] eqn:Hstats.
    + eexists. split; [reflexivity |]. simpl. repeat split.
    + simpl length. rewrite length_not_zero.
      eexists. split; [reflexivity |]. simpl. repeat split.
  - destruct (person_count_stats lv) as [| c cs] eqn:Hstats.
    + eexists. split; [reflexivity |]. simpl. repeat split.
    + simpl length. rewrite length_not_zero.
      eexists. split; [reflexivity |]. simpl. repeat split.
Qed.

(** Every run raises in the set-up, or raises in the loop, or gets through
    the loop, releases both handles and returns the summary of the loop's
    final variables. *)
Lemma run_inv r s :
  run w self progress_callback show_fps = (r, s) ->
  (exists e, r = inl e /\ setup w self initial = (inl e, s)) \/
  (exists e,
     r = inl e /\
     cap_isOpened w = true /\ meta_fps w <> 0 /\ out_isOpened w = true /\
     loop w self progress_callback show_fps (meta_total w) (cap_frames w)
       no_frames (tick (writer_on initial)) = (inl e, s)) \/
  (exists sm lv s1,
     r = inr sm /\
     cap_isOpened w = true /\ meta_fps w <> 0 /\ out_isOpened w = true /\
     loop w self progress_callback show_fps (meta_total w) (cap_frames w)
       no_frames (tick (writer_on initial)) = (inr lv, s1) /\
     s = tick (out_release (cap_release s1)) /\
     finalize self (meta_width w) (meta_height w) (time_time w 0)
       (time_time w (clock_reads s1)) lv s = (inr sm, s)).
Proof.
  unfold run, process_video. intros Hrun.
  apply bind_inv in Hrun as [(e & Hset & ->) | (meta & s0 & Hset & Hrun)].
  { left. exists e. split; [reflexivity | exact Hset]. }
  right.
  apply setup_inv in Hset
    as [(Hr & _) | [(Hr & _) | [(Hr & _) | (Hr & Hcap & Hfps & Hout & ->)]]];
    try discriminate Hr.
  inversion Hr; subst meta; clear Hr.
  apply bind_inv in Hrun as [(e & Hloop & ->) | (lv & s1 & Hloop & Hrun)].
  { left. exists e. repeat split; assumption. }
  right. unfold bind, release_cap, release_out, time in Hrun. cbn beta iota in Hrun.
  destruct (finalize_total (meta_width w) (meta_height w) (time_time w 0)
              (time_time w (clock_reads (out_release (cap_release s1)))) lv
              (tick (out_release (cap_release s1)))) as (sm & Hfin & _).
  rewrite Hfin in Hrun. inversion Hrun; subst r s; clear Hrun.
  exists sm, lv, s1. repeat split; assumption.
Qed.

(** A set-up that raises has released nothing and called nothing. *)
Lemma setup_raises e s :
  setup w self initial = (inl e, s) ->
  released_never s /\ progress_calls s = [] /\ cap_reads s = O /\
  written s = [] /\ detector_calls s = O.
Proof.
  intros Hset. apply setup_inv in Hset
    as [(_ & _ & ->) | [(_ & _ & _ & ->) | [(_ & _ & _ & _ & ->) | (Hr & _)]]];
    [repeat split .. | discriminate Hr].
Qed.

End Run.

(** ** The progress calls in closed form *)

Section Calls.
Variables (w : world) (cb : callback) (total : Z).

Lemma calls_from_flat_map n :
  forall c,
  calls_from w (Some cb) total (Z.of_nat c) (S (2 * c)) n =
  flat_map (fun k => calls_at (Some cb) total (Z.of_nat k) (frame_time w k))
    (seq (S c) n).
Proof.
  induction n as [| n IH]; intros c; [reflexivity |].
  cbn [calls_from seq flat_map].
  replace (Z.of_nat c + 1) with (Z.of_nat (S c)) by lia.
  replace (S (S (S (2 * c)))) with (S (2 * S c)) by lia.
  rewrite IH. f_equal. unfold frame_time.
  replace (2 * S c - 1)%nat with (S (2 * c)) by lia.
  replace (S (2 * S c)) with (S (S (S (2 * c)))) by lia.
  replace (2 * S c)%nat with (S (S (2 * c))) by lia.
  reflexivity.
Qed.

Lemma next_multiple_of_30 (n : nat) :
  ((S n mod 30 = 0 /\ S n / 30 = S (n / 30) /\ 30 * S (n / 30) = S n) \/
   (S n mod 30 <> 0 /\ S n / 30 = n / 30))%nat.
Proof.
  pose proof (Nat.div_mod_eq n 30) as Hn.
  pose proof (Nat.mod_upper_bound n 30 ltac:(lia)) as Hr.
  pose proof (Nat.div_mod_eq (S n) 30) as Hn'.
  pose proof (Nat.mod_upper_bound (S n) 30 ltac:(lia)) as Hr'.
  lia.
Qed.

Lemma mod_30_of_nat (k : nat) :
  (Z.of_nat k mod 30 =? 0) = (k mod 30 =? 0)%nat.
Proof.
  change 30 with (Z.of_nat 30) at 1. rewrite <- Nat2Z.inj_mod.
  destruct (Nat.eqb_spec (k mod 30) 0) as [Heq | Hne].
  - rewrite Heq. reflexivity.
  - apply Z.eqb_neq. lia.
Qed.

Lemma flat_map_every_30th n :
  flat_map (fun k => calls_at (Some cb) total (Z.of_nat k) (frame_time w k))
    (seq 1 n) =
  map (nth_call w total) (seq 1 (n / 30)).
Proof.
  induction n as [| n IH]; [reflexivity |].
  rewrite seq_S, flat_map_app, IH. cbn [flat_map]. rewrite app_nil_r.
  change (1 + n)%nat with (S n). unfold calls_at. rewrite mod_30_of_nat.
  destruct (next_multiple_of_30 n) as [(Hm & Hq & Hk) | (Hm & Hq)]; rewrite Hq.
  - rewrite Hm. cbn [Nat.eqb].
    rewrite seq_S, map_app. cbn [map]. unfold nth_call.
    change (1 + n / 30)%nat with (S (n / 30)). rewrite Hk. reflexivity.
  - apply Nat.eqb_neq in Hm. rewrite Hm. apply app_nil_r.
Qed.

Lemma calls_from_start n :
  calls_from w (Some cb) total 0 1 n = map (nth_call w total) (seq 1 (n / 30)).
Proof.
  rewrite <- flat_map_every_30th. apply (calls_from_flat_map n O).
Qed.

End Calls.

(** ** Sums, minima and maxima *)

Lemma fold_add_shift (l : list Z) (a : Z) : fold_left Z.add l a = a + sumZ l.
Proof.
  unfold sumZ. revert a. induction l as [| x l IH]; intros a; simpl; [lia |].
  rewrite (IH (a + x)), (IH (0 + x)). lia.
Qed.

Lemma sumZ_cons (x : Z) (l : list Z) : sumZ (x :: l) = x + sumZ l.
Proof. unfold sumZ at 1. simpl. apply fold_add_shift. Qed.

Lemma sumZ_bounds (lo hi : Z) (l : list Z) :
  (forall y, In y l -> lo <= y <= hi) ->
  lo * Z.of_nat (length l) <= sumZ l <= hi * Z.of_nat (length l).
Proof.
  induction l as [| x l IH]; intros Hall.
  - unfold sumZ. simpl. lia.
  - rewrite sumZ_cons. simpl length.
    pose proof (Hall x (or_introl eq_refl)) as Hx.
    assert (IH' := IH (fun y Hy => Hall y (or_intror Hy))). lia.
Qed.

Lemma fold_max_spec (l : list Z) (x : Z) :
  In (fold_left Z.max l x) (x :: l) /\
  forall y, In y (x :: l) -> y <= fold_left Z.max l x.
Proof.
  revert x. induction l as [| z l IH]; intros x; simpl.
  - split; [left; reflexivity | intros y [-> | []]; lia].
  - destruct (IH (Z.max x z)) as [Hin Hub]. split.
    + destruct Hin as [Heq | Hin]; [| right; right; exact Hin].
      destruct (Z.max_spec x z) as [[_ Hm] | [_ Hm]]; rewrite Hm in *; auto.
    + intros y [-> | [-> | Hy]].
      * specialize (Hub (Z.max y z) (or_introl eq_refl)). lia.
      * specialize (Hub (Z.max x y) (or_introl eq_refl)). lia.
      * apply Hub. right. exact Hy.
Qed.

Lemma fold_min_spec (l : list Z) (x : Z) :
  In (fold_left Z.min l x) (x :: l) /\
  forall y, In y (x :: l) -> fold_left Z.min l x <= y.
Proof.
  revert x. induction l as [| z l IH]; intros x; simpl.
  - split; [left; reflexivity | intros y [-> | []]; lia].
  - destruct (IH (Z.min x z)) as [Hin Hlb]. split.
    + destruct Hin as [Heq | Hin]; [| right; right; exact Hin].
      destruct (Z.min_spec x z) as [[_ Hm] | [_ Hm]]; rewrite Hm in *; auto.
    + intros y [-> | [-> | Hy]].
      * specialize (Hlb (Z.min y z) (or_introl eq_refl)). lia.
      * specialize (Hlb (Z.min x y) (or_introl eq_refl)). lia.
      * apply Hlb. right. exact Hy.
Qed.

Lemma mean_between (l : list Z) :
  l <> [] ->
  (inject_Z (min l) <= inject_Z (sumZ l) / inject_Z (Z.of_nat (length l)) /\
   inject_Z (sumZ l) / inject_Z (Z.of_nat (length l)) <= inject_Z (max l))%Q.
Proof.
  destruct l as [| x l]; [congruence | intros _].
  destruct (fold_min_spec l x) as [_ Hlb]. destruct (fold_max_spec l x) as [_ Hub].
  pose proof (sumZ_bounds (min (x :: l)) (max (x :: l)) (x :: l)
                (fun y Hy => conj (Hlb y Hy) (Hub y Hy))) as [Hlo Hhi].
  assert (Hpos : (0 < inject_Z (Z.of_nat (length (x :: l))))%Q).
  { rewrite <- (Zlt_Qlt 0). simpl length. lia. }
  split.
  - apply Qle_shift_div_l; [exact Hpos |].
    rewrite <- inject_Z_mult, <- Zle_Qle. exact Hlo.
  - apply Qle_shift_div_r; [exact Hpos |].
    rewrite <- inject_Z_mult, <- Zle_Qle. exact Hhi.
Qed.

(** ** A run in which only the program can raise *)

Lemma fold_plus_pos_acc (l : list Q) :
  forall a, Forall (fun t => (0 < t)%Q) l -> (0 < a)%Q ->
  (0 < fold_left Qplus l a)%Q.
Proof.
  induction l as [| x l IH]; intros a Hall Ha; simpl; [exact Ha |].
  inversion Hall as [| ? ? Hx Hl]; subst. apply IH; [exact Hl | lra].
Qed.

Lemma sumQ_pos (l : list Q) :
  Forall (fun t => (0 < t)%Q) l -> l <> [] -> (0 < sumQ l)%Q.
Proof.
  destruct l as [| x l]; [congruence | intros Hall _].
  inversion Hall as [| ? ? Hx Hl]; subst.
  unfold sumQ. simpl. apply fold_plus_pos_acc; [exact Hl | lra].
Qed.

Lemma last_n_not_nil {A : Type} (n : nat) (l : list A) :
  (0 < n)%nat -> l <> [] -> last_n n l <> [].
Proof.
  intros Hn Hl Hnil. unfold last_n in Hnil.
  apply (f_equal (@length A)) in Hnil. rewrite length_skipn in Hnil.
  destruct l; [congruence | simpl in Hnil; lia].
Qed.

Section Smooth.
Context `{Cv2} `{PyFormat}.
Variables (w : world) (self : t) (cb : callback) (show_fps : bool).

Lemma overlay_runs times dets o s :
  show_fps = false \/ Forall (fun t => (0 < t)%Q) times ->
  exists o', overlay show_fps times dets o s = (inr o', s).
Proof.
  intros Hshow. unfold overlay.
  destruct (show_fps && (0 <? length times)%nat) eqn:Hon;
    [| eexists; reflexivity].
  apply andb_true_iff in Hon as [Hs Hlen]. apply Nat.ltb_lt in Hlen.
  destruct Hshow as [Hoff | Hpos]; [congruence |].
  assert (Hwin : last_n 30 times <> []).
  { apply last_n_not_nil; [lia | destruct times; [simpl in Hlen; lia | discriminate]]. }
  assert (Hsum : (0 < sumQ (last_n 30 times))%Q).
  { apply sumQ_pos; [apply Forall_drop; exact Hpos | exact Hwin]. }
  destruct (last_n 30 times) as [| t0 win] eqn:Hw; [congruence |].
  unfold bind, lift, truediv. simpl length. rewrite length_not_zero.
  set (mean := (sumQ (t0 :: win) / inject_Z (Z.of_nat (S (length win))))%Q).
  assert (Hmean : (0 < mean)%Q).
  { apply Qlt_shift_div_l; [rewrite <- (Zlt_Qlt 0); lia | lra]. }
  destruct (Qeq_bool mean 0) eqn:Hz.
  - apply Qeq_bool_iff in Hz. lra.
  - eexists; reflexivity.
Qed.

Lemma loop_body_runs total f lv s :
  nothing_else_raises w self show_fps ->
  show_fps = false \/ Forall (fun t => (0 < t)%Q) (processing_times lv) ->
  exists o,
    let ft := (time_time w (S (clock_reads s)) - time_time w (clock_reads s))%Q in
    let s1 := tick (push o (count_detect (tick s))) in
    loop_body w self (Some cb) show_fps total f lv s =
    match report (Some cb) total (frame_count lv + 1) ft s1 with
    | (inl e, s') => (inl e, s')
    | (inr _, s') =>
        (inr {| frame_count := frame_count lv + 1;
                person_count_stats :=
                  person_count_stats lv ++ [detection_count self f];
                processing_times := processing_times lv ++ [ft] |}, s')
    end.
Proof.
  intros (Hdet & Hdraw & Hwrite & _) Hpos.
  destruct (Hdet f) as [ds Hds]. destruct (Hdraw f ds) as [o Ho].
  destruct (overlay_runs (processing_times lv) ds o (count_detect (tick s)) Hpos)
    as [o' Ho'].
  exists o'. cbn zeta. unfold loop_body, bind, time, detect, lift, write, ret.
  rewrite Hds, Ho, Ho', Hwrite. unfold detection_count. rewrite Hds.
  reflexivity.
Qed.

Lemma report_total_0 fc ft s :
  report (Some cb) 0 fc ft s =
  if fc mod 30 =? 0 then (inl (ZeroDivisionError AtProgressPercent), s)
  else (inr tt, s).
Proof. unfold report. destruct (fc mod 30 =? 0); reflexivity. Qed.

Lemma loop_aborts_at_30 frames :
  forall (c : nat) lv s,
  nothing_else_raises w self show_fps ->
  frame_count lv = Z.of_nat c ->
  (c < 30)%nat -> (30 <= c + length frames)%nat ->
  show_fps = false \/ Forall (fun t => (0 < t)%Q) (processing_times lv) ->
  exists s',
    loop w self (Some cb) show_fps 0 frames lv s =
      (inl (ZeroDivisionError AtProgressPercent), s') /\
    length (written s') = (length (written s) + (30 - c))%nat /\
    cap_reads s' = (cap_reads s + (30 - c))%nat.
Proof.
  induction frames as [| f rest IH]; intros c lv s Hok Hfc Hc Hlen Hpos;
    [simpl in Hlen; lia |].
  simpl loop. unfold bind at 1. unfold read at 1. cbn beta iota.
  unfold bind at 1.
  destruct (loop_body_runs 0 f lv (count_read s) Hok Hpos) as [o Hbody].
  cbn zeta in Hbody. rewrite Hbody, report_total_0, Hfc.
  destruct (Nat.eq_dec (S c) 30%nat) as [Hlast | Hmore].
  - replace (Z.of_nat c + 1) with 30 by lia. simpl.
    eexists. split; [reflexivity |]. simpl. rewrite length_app. simpl. lia.
  - assert (Hmod : ((Z.of_nat c + 1) mod 30 =? 0) = false).
    { apply Z.eqb_neq. rewrite Z.mod_small; lia. }
    rewrite Hmod.
    edestruct (IH (S c)) as (s' & Hloop & Hw & Hr);
      [exact Hok | | | | | rewrite Hloop].
    + simpl. lia.
    + lia.
    + simpl in Hlen. lia.
    + destruct Hok as (_ & _ & _ & [Hoff | Hclock]); [left; exact Hoff |].
      destruct Hpos as [Hoff | Hpos]; [left; exact Hoff | right]. simpl.
      apply Forall_app. split; [exact Hpos |]. constructor; [| constructor].
      specialize (Hclock (clock_reads s)). lra.
    + eexists. split; [reflexivity |]. rewrite Hw, Hr. simpl.
      rewrite length_app. simpl. lia.
Qed.

End Smooth.

(** ** What [detect_persons] returns *)

Lemma box_detection_sound (box : Box) (d : Detection) :
  In d (PersonDetector.box_detection box) ->
  let '(x1, y1, x2, y2) := xyxy box in
  (x1 < x2)%Q /\ (y1 < y2)%Q /\
  bbox d = (int x1, int y1, int x2, int y2) /\
  confidence d = conf box /\ class_name d = "person".
Proof.
  unfold PersonDetector.box_detection.
  destruct (xyxy box) as [[[x1 y1] x2] y2].
  destruct (gt x2 x1) eqn:Hx; [| intros []].
  destruct (gt y2 y1) eqn:Hy; [| intros []].
  intros [<- | []]. unfold gt in Hx, Hy.
  apply negb_true_iff in Hx, Hy.
  assert (Hx' : ~ (x2 <= x1)%Q) by (rewrite <- Qle_bool_iff; congruence).
  assert (Hy' : ~ (y2 <= y1)%Q) by (rewrite <- Qle_bool_iff; congruence).
  repeat split; lra.
Qed.

(** Every record returned comes from a box of the model that passed the
    check on its float corners; it stores the truncated corners and the
    confidence of the model as it is. *)
Lemma detect_persons_sound (self : PersonDetector.t) (f : frame)
    (ds : list Detection) (d : Detection) :
  PersonDetector.detect_persons self f = inr ds ->
  In d ds ->
  exists box,
    let '(x1, y1, x2, y2) := xyxy box in
    (x1 < x2)%Q /\ (y1 < y2)%Q /\
    bbox d = (int x1, int y1, int x2, int y2) /\
    confidence d = conf box /\ class_name d = "person".
Proof.
  unfold PersonDetector.detect_persons.
  destruct (PersonDetector.model_predict _ _ _ _ _ _) as [e | results];
    [discriminate |].
  intros Hds Hd. inversion Hds; subst ds; clear Hds.
  apply in_flat_map in Hd as (r & _ & Hd).
  unfold PersonDetector.result_detections in Hd.
  destruct (boxes r) as [bs |]; [| destruct Hd].
  destruct (length bs =? 0)%nat; [destruct Hd |].
  apply in_flat_map in Hd as (box & _ & Hd).
  exists box. apply box_detection_sound. exact Hd.
Qed.

(** ** Drawing on the store *)

Section Drawing.
Context `{Cv2} `{PyFormat}.
Variables (line_thickness : Z) (font_scale : Q).

Lemma draw_detection_lookup (out : nat) (h : heap) (det : Detection) (l : nat) :
  PersonDetector.draw_detection line_thickness font_scale out h det !! l =
  if decide (out = l)
  then (fun f => PersonDetector.paint line_thickness font_scale f det) <$> h !! out
  else h !! l.
Proof.
  unfold PersonDetector.draw_detection, PersonDetector.paint.
  destruct (bbox det) as [[[x1 y1] x2] y2].
  destruct (getTextSize _ _ _ _) as [[tw th] bl].
  unfold cv2_putText, cv2_rectangle.
  rewrite !lookup_alter. destruct (decide (out = l)) as [-> | Hne].
  - rewrite !decide_True by reflexivity. destruct (h !! l); reflexivity.
  - reflexivity.
Qed.

Lemma draw_all_lookup (out : nat) (dets : list Detection) :
  forall (h : heap) (f : frame),
  h !! out = Some f ->
  fold_left (PersonDetector.draw_detection line_thickness font_scale out) dets h
    !! out = Some (PersonDetector.annotated line_thickness font_scale f dets) /\
  forall l, l <> out ->
    fold_left (PersonDetector.draw_detection line_thickness font_scale out) dets h
      !! l = h !! l.
Proof.
  induction dets as [| det dets IH]; intros h f Hout; simpl.
  - split; [exact Hout | reflexivity].
  - destruct (IH (PersonDetector.draw_detection line_thickness font_scale out h det)
                (PersonDetector.paint line_thickness font_scale f det)) as [Hat Hoff].
    { rewrite draw_detection_lookup, decide_True by reflexivity.
      rewrite Hout. reflexivity. }
    split; [exact Hat |].
    intros l Hl. rewrite (Hoff l Hl), draw_detection_lookup.
    rewrite decide_False by congruence. reflexivity.
Qed.

(** One call: a fresh buffer holds the annotated pixels, every buffer that
    existed is as it was. *)
Lemma draw_detections_spec (src : nat) (dets : list Detection) (h : heap)
    (f : frame) :
  h !! src = Some f ->
  exists h' out,
    PersonDetector.draw_detections src dets line_thickness font_scale h =
      Some (h', out) /\
    h !! out = None /\
    h' !! out = Some (PersonDetector.annotated line_thickness font_scale f dets) /\
    forall l, l <> out -> h' !! l = h !! l.
Proof.
  intros Hf. unfold PersonDetector.draw_detections, np_copy. rewrite Hf.
  set (out := fresh (dom h)).
  assert (Hfresh : h !! out = None).
  { apply not_elem_of_dom. apply is_fresh. }
  destruct (draw_all_lookup out dets (<[out := f]> h) f) as [Hat Hoff].
  { apply lookup_insert_eq. }
  eexists _, out. split; [reflexivity |].
  split; [exact Hfresh |]. split; [exact Hat |].
  intros l Hl. rewrite (Hoff l Hl). apply lookup_insert_ne. congruence.
Qed.

End Drawing.

(** * Properties of the pipeline and of the detector *)

Section PipelineProperties.
Context `{Cv2} `{PyFormat}.

(** C1, release of the stream handles.  A run of [process_video] that
    returns has released the decoder and the encoder exactly once each; a
    run that raises, whether
    the encoder failed to open or an exception came out of the loop body,
    has released neither: the two [release] calls stand after the loop and
    nothing catches an exception on the way. *)
Theorem process_video_releases (w : world) (self : t)
    (progress_callback : option callback) (show_fps : bool) :
  match run w self progress_callback show_fps with
  | (inr _, s) => released_once s
  | (inl _, s) => released_never s
  end.
Proof.
  destruct (run w self progress_callback show_fps) as [r s] eqn:Hrun.
  apply run_inv in Hrun
    as [(e & -> & Hset) | [(e & -> & _ & _ & _ & Hloop)
                          | (sm & lv & s1 & -> & _ & _ & _ & Hloop & -> & _)]].
  - apply setup_raises in Hset as [Hnever _]. exact Hnever.
  - apply loop_untouched in Hloop as [Hc Ho]. split; [rewrite Hc | rewrite Ho]; reflexivity.
  - apply loop_untouched in Hloop as [Hc Ho]. unfold released_once. simpl.
    rewrite Hc, Ho. split; reflexivity.
Qed.

(** C2.  After the set-up, whenever some iterations have completed (the
    frames [pre] read so far, [post] still to come), the frame counter, the
    number of recorded detection counts and the number of frames written are
    all the number of iterations; and once every frame has been through
    ([post] empty) the run returns, its summary counts all the frames, and
    as many frames were written. *)
Theorem frame_accounting (w : world) (self : t)
    (progress_callback : option callback) (show_fps : bool)
    (width height total : Z) (start_time : Q) (s0 : state)
    (pre post : list frame) (lv : locals) (s : state) :
  setup w self initial = (inr (width, height, total, start_time), s0) ->
  cap_frames w = pre ++ post ->
  iterations w self progress_callback show_fps total pre no_frames s0 = (inr lv, s) ->
  (frame_count lv = Z.of_nat (length pre) /\
   length (person_count_stats lv) = length pre /\
   length (written s) = length pre) /\
  loop w self progress_callback show_fps total (cap_frames w) no_frames s0 =
    loop w self progress_callback show_fps total post lv s /\
  (post = [] ->
   exists sm s',
     run w self progress_callback show_fps = (inr sm, s') /\
     total_frames sm = Z.of_nat (length (cap_frames w)) /\
     length (person_count_stats lv) = length (cap_frames w) /\
     written s' = written s /\
     length (written s') = length (cap_frames w)).
Proof.
  intros Hset Hframes Hit.
  pose proof (setup_inv _ _ _ _ _ Hset)
    as [(Hr & _) | [(Hr & _) | [(Hr & _) | (Hr & Hcap & Hfps & Hout & ->)]]];
    try discriminate Hr.
  inversion Hr; subst width height total start_time; clear Hr.
  pose proof (iterations_ok _ _ _ _ _ _ _ _ _ _ Hit)
    as (Hfc & Hstats & Hw & _).
  assert (Hinv : frame_count lv = Z.of_nat (length pre) /\
                 length (person_count_stats lv) = length pre /\
                 length (written s) = length pre).
  { rewrite Hfc, Hstats, Hw. simpl. rewrite length_map. repeat split; lia. }
  split; [exact Hinv |].
  split.
  { rewrite Hframes, loop_app. unfold bind. rewrite Hit. reflexivity. }
  intros ->. rewrite app_nil_r in Hframes. rewrite Hframes.
  destruct Hinv as (Hfc' & Hstats' & Hw').
  destruct (finalize_total self (meta_width w) (meta_height w) (time_time w 0)
              (time_time w (clock_reads (out_release (cap_release (count_read s)))))
              lv (tick (out_release (cap_release (count_read s)))))
    as (sm & Hfin & Htot & _).
  exists sm, (tick (out_release (cap_release (count_read s)))).
  split; [| rewrite Htot; repeat split; assumption].
  unfold run, process_video, bind. rewrite Hset, Hframes.
  rewrite loop_iterations. unfold bind. rewrite Hit.
  unfold read, ret, release_cap, release_out, time. exact Hfin.
Qed.

(** C3, the progress calls.  In a run with a progress callback that
    returns, over [n] frames, the callback was called [n / 30] times, the
    [j]-th call at frame count [30 * j], with the percentage
    [frame_count / total * 100]
    ([total] taken from the metadata), the frame count (strictly increasing
    from call to call), the metadata total, and [1 / d] for the duration
    [d] measured for that frame when [d] is positive, 0 otherwise.  Without
    a callback nothing is ever called. *)
Theorem progress_reports (w : world) (self : t) (cb : callback)
    (show_fps : bool) (sm : Summary) (s : state) :
  run w self (Some cb) show_fps = (inr sm, s) ->
  let n := length (cap_frames w) in
  let total := meta_total w in
  progress_calls s = map (nth_call w total) (seq 1 (n / 30)) /\
  length (progress_calls s) = (n / 30)%nat /\
  (forall i a, progress_calls s !! i = Some a ->
     let k := (30 * S i)%nat in
     (k <= n)%nat /\
     current a = Z.of_nat k /\
     (percent a == 100 * inject_Z (current a) / inject_Z total)%Q /\
     a = ((inject_Z (Z.of_nat k) / inject_Z total * 100)%Q, Z.of_nat k, total,
          current_fps (frame_time w k))) /\
  (forall i j a b, (i < j)%nat ->
     progress_calls s !! i = Some a -> progress_calls s !! j = Some b ->
     current a < current b) /\
  progress_calls (snd (run w self None show_fps)) = [].
Proof.
  intros Hrun n total.
  apply run_inv in Hrun
    as [(e & Hr & _) | [(e & Hr & _)
                       | (sm' & lv & s1 & _ & _ & _ & _ & Hloop & -> & _)]];
    try discriminate Hr.
  apply loop_ok in Hloop as (_ & _ & _ & _ & _ & _ & Hcalls).
  simpl in Hcalls. rewrite calls_from_start in Hcalls. simpl progress_calls.
  fold n total in Hcalls.
  assert (Hlookup : forall i a, progress_calls s1 !! i = Some a ->
            (i < n / 30)%nat /\ a = nth_call w total (S i)).
  { intros i a Hi. rewrite Hcalls, list_lookup_fmap in Hi.
    destruct (seq 1 (n / 30) !! i) as [j |] eqn:Hj; [| discriminate Hi].
    apply lookup_seq in Hj as [-> Hlt]. inversion Hi. split; [exact Hlt | reflexivity]. }
  split; [exact Hcalls |].
  split; [rewrite Hcalls, length_map, length_seq; reflexivity |].
  split; [| split].
  - intros i a Hi k. apply Hlookup in Hi as [Hlt ->].
    pose proof (Nat.div_mod_eq n 30) as Hn.
    split; [subst k; lia |].
    split; [reflexivity |].
    split; [| reflexivity].
    unfold nth_call, progress_args_at, percent, current. simpl.
    unfold Qdiv. ring.
  - intros i j a b Hij Hi Hj.
    apply Hlookup in Hi as [_ ->]. apply Hlookup in Hj as [_ ->].
    unfold nth_call, progress_args_at, current. simpl fst. simpl snd. lia.
  - destruct (run w self None show_fps) as [r s] eqn:Hnone. simpl.
    apply run_inv in Hnone
      as [(e & _ & Hset) | [(e & _ & _ & _ & _ & Hloop)
                           | (sm2 & lv' & s2 & _ & _ & _ & _ & Hloop & -> & _)]].
    + apply setup_raises in Hset as (_ & Hc & _). exact Hc.
    + apply (loop_silent_none _ _ None) in Hloop; [exact Hloop | reflexivity].
    + apply (loop_silent_none _ _ None) in Hloop; [exact Hloop | reflexivity].
Qed.

(** C4.  When the decoder yields no frame (and the set-up goes through:
    the decoder and the encoder open, the frame rate is not 0), the run
    returns; the loop body never ran (one [cap.read()], no detection, no
    frame written, no progress call); the summary has [total_frames],
    [avg_persons], [min_persons] and [max_persons] all 0, and [avg_fps] is
    0, computed without a division when no time has elapsed. *)
Theorem empty_video (w : world) (self : t) (progress_callback : option callback)
    (show_fps : bool) :
  cap_frames w = [] ->
  cap_isOpened w = true -> meta_fps w <> 0 -> out_isOpened w = true ->
  exists sm s,
    run w self progress_callback show_fps = (inr sm, s) /\
    (cap_reads s = 1%nat /\ detector_calls s = 0%nat /\ written s = [] /\
     progress_calls s = []) /\
    total_frames sm = 0 /\
    avg_persons sm = 0%Q /\ min_persons sm = 0 /\ max_persons sm = 0 /\
    (avg_fps sm == 0)%Q /\
    ((total_time sm <= 0)%Q -> avg_fps sm = 0%Q).
Proof.
  intros Hframes Hcap Hfps Hout.
  destruct (run w self progress_callback show_fps) as [r s] eqn:Hrun.
  pose proof Hrun as Hrun'.
  unfold run, process_video, bind in Hrun'.
  destruct (setup w self initial) as [rs s0] eqn:Hset.
  apply setup_inv in Hset
    as [(_ & Hc & _) | [(_ & _ & Hf & _) | [(_ & _ & _ & Ho & _)
                                           | (-> & _ & _ & _ & ->)]]];
    [congruence | contradiction | congruence |].
  rewrite Hframes in Hrun'. simpl in Hrun'.
  unfold bind, read, ret, release_cap, release_out, time in Hrun'. simpl in Hrun'.
  destruct (finalize_total self (meta_width w) (meta_height w) (time_time w 0)
              (time_time w 1) no_frames
              (tick (out_release (cap_release (count_read (tick (writer_on initial)))))))
    as (sm & Hfin & Htot & Htime & Havg & Hpers & Hmax & Hmin).
  rewrite Hfin in Hrun'. inversion Hrun'; subst r s; clear Hrun'.
  exists sm, (tick (out_release (cap_release (count_read (tick (writer_on initial)))))).
  split; [reflexivity |].
  split; [repeat split |].
  simpl in *. repeat split; try assumption.
  - rewrite Havg. destruct (gt _ 0); [| reflexivity]. unfold Qdiv. ring.
  - intros Hle. rewrite Havg. rewrite Htime in Hle. unfold gt.
    apply Qle_bool_iff in Hle. rewrite Hle. reflexivity.
Qed.

(** C5.  In a run that returns over at least one frame, the recorded
    detection counts are the numbers of detections on the frames, in order;
    [avg_persons] is their sum divided by their number, [min_persons] and
    [max_persons] are their least and greatest element, and
    [min_persons <= avg_persons <= max_persons]. *)
Theorem person_statistics (w : world) (self : t)
    (progress_callback : option callback) (show_fps : bool)
    (sm : Summary) (s : state) :
  run w self progress_callback show_fps = (inr sm, s) ->
  cap_frames w <> [] ->
  let counts := map (detection_count self) (cap_frames w) in
  (exists lv s1,
     loop w self progress_callback show_fps (meta_total w) (cap_frames w)
       no_frames (tick (writer_on initial)) = (inr lv, s1) /\
     person_count_stats lv = counts) /\
  avg_persons sm =
    (inject_Z (sumZ counts) / inject_Z (Z.of_nat (length counts)))%Q /\
  (In (min_persons sm) counts /\ forall c, In c counts -> min_persons sm <= c) /\
  (In (max_persons sm) counts /\ forall c, In c counts -> c <= max_persons sm) /\
  (inject_Z (min_persons sm) <= avg_persons sm)%Q /\
  (avg_persons sm <= inject_Z (max_persons sm))%Q.
Proof.
  intros Hrun Hne counts.
  apply run_inv in Hrun
    as [(e & Hr & _) | [(e & Hr & _)
                       | (sm' & lv & s1 & Hr & _ & _ & _ & Hloop & -> & Hfin)]];
    try discriminate Hr.
  inversion Hr; subst sm'; clear Hr.
  pose proof (loop_ok _ _ _ _ _ _ _ _ _ _ Hloop) as (_ & Hstats & _).
  simpl in Hstats. fold counts in Hstats.
  destruct (finalize_total self (meta_width w) (meta_height w) (time_time w 0)
              (time_time w (clock_reads s1)) lv
              (tick (out_release (cap_release s1))))
    as (sm' & Hfin' & _ & _ & _ & Havg & Hmax & Hmin).
  rewrite Hfin in Hfin'. inversion Hfin'; subst sm'; clear Hfin'.
  rewrite Hstats in Havg, Hmax, Hmin.
  assert (Hcounts : counts <> []).
  { subst counts. destruct (cap_frames w); [congruence | discriminate]. }
  destruct counts as [| c cs] eqn:Hc; [congruence |].
  split; [exists lv, s1; split; assumption |].
  split; [exact Havg |].
  rewrite Havg, Hmin, Hmax.
  split; [apply fold_min_spec |].
  split; [apply fold_max_spec |].
  apply mean_between. discriminate.
Qed.

(** C9.  When the decoder opens and the frame rate read from the metadata
    is 0, the run raises [ZeroDivisionError] at the division printed as the
    duration, in the state it started in: no frame read, none written, the
    encoder not created. *)
Theorem zero_frame_rate (w : world) (self : t)
    (progress_callback : option callback) (show_fps : bool) :
  cap_isOpened w = true ->
  meta_fps w = 0 ->
  run w self progress_callback show_fps =
    (inl (ZeroDivisionError AtDurationPrint), initial) /\
  cap_reads initial = 0%nat /\ written initial = [] /\
  writer_created initial = false.
Proof.
  intros Hcap Hfps. split; [| repeat split].
  unfold run, process_video, bind.
  destruct (setup w self initial) as [rs s0] eqn:Hset.
  apply setup_inv in Hset
    as [(_ & Hc & _) | [(-> & _ & _ & ->) | [(_ & _ & Hf & _)
                                            | (_ & _ & Hf & _)]]];
    [congruence | reflexivity | contradiction | contradiction].
Qed.

(** C10.  With a progress callback, a metadata frame count of 0 and at
    least 30 frames in the stream, no run returns: it raises, and the
    callback is never called.  When nothing outside the program raises
    first, the exception is the [ZeroDivisionError] of the percentage, at the
    thirtieth frame: thirty frames were read and written. *)
Theorem zero_total_frames (w : world) (self : t) (cb : callback)
    (show_fps : bool) (r : result Summary) (s : state) :
  meta_total w = 0 ->
  (30 <= length (cap_frames w))%nat ->
  run w self (Some cb) show_fps = (r, s) ->
  (exists e, r = inl e) /\
  progress_calls s = [] /\
  (cap_isOpened w = true -> meta_fps w <> 0 -> out_isOpened w = true ->
   nothing_else_raises w self show_fps ->
   r = inl (ZeroDivisionError AtProgressPercent) /\
   cap_reads s = 30%nat /\ length (written s) = 30%nat).
Proof.
  intros Htotal Hlen Hrun.
  pose proof (run_inv _ _ _ _ _ _ Hrun)
    as [(e & -> & Hset) | [(e & -> & Hcap & Hfps & Hout & Hloop)
                          | (sm & lv & s1 & -> & _ & _ & _ & Hloop & -> & _)]].
  - split; [exists e; reflexivity |].
    pose proof (setup_raises _ _ _ _ Hset) as (_ & Hcalls & _).
    split; [exact Hcalls |].
    intros Hcap Hfps Hout _. exfalso.
    apply setup_inv in Hset
      as [(_ & Hc & _) | [(_ & _ & Hf & _) | [(_ & _ & _ & Ho & _) | (Hr & _)]]];
      [congruence | contradiction | congruence | discriminate Hr].
  - split; [exists e; reflexivity |].
    split; [apply loop_silent_total_0 in Hloop; [exact Hloop | exact Htotal] |].
    intros _ _ _ Hok. rewrite Htotal in Hloop.
    destruct (loop_aborts_at_30 w self cb show_fps (cap_frames w) O no_frames
                (tick (writer_on initial)) Hok eq_refl ltac:(lia) ltac:(lia)
                (or_intror (List.Forall_nil _)))
      as (s' & Hloop' & Hw & Hr).
    rewrite Hloop in Hloop'. inversion Hloop'; subst e s'.
    split; [reflexivity |]. split; [exact Hr | exact Hw].
  - exfalso.
    pose proof (loop_silent_total_0 _ _ _ _ _ _ _ Htotal _ _ _ Hloop) as Hsame.
    apply loop_ok in Hloop as (_ & _ & _ & _ & _ & _ & Hcalls).
    rewrite Hsame in Hcalls.
    change (frame_count no_frames) with 0 in Hcalls.
    change (clock_reads (tick (writer_on initial))) with 1%nat in Hcalls.
    change (progress_calls (tick (writer_on initial))) with (@nil progress_args) in Hcalls.
    rewrite calls_from_start in Hcalls.
    apply (f_equal (@length progress_args)) in Hcalls.
    rewrite length_app, length_map, length_seq in Hcalls. cbn [length] in Hcalls.
    pose proof (Nat.div_mod_eq (length (cap_frames w)) 30) as Hn.
    pose proof (Nat.mod_upper_bound (length (cap_frames w)) 30 ltac:(lia)) as Hm.
    lia.
Qed.

End PipelineProperties.

Section DetectorProperties.
Context `{Cv2} `{PyFormat}.

(** C7.  For a detection drawn by [draw_detections], with [text_height] the
    height of its label: the label is written at [text_y]; when the top of
    the box [y1] is less than [text_height + 10] the label goes to
    [y1 + text_height + 10], below the top edge of the box; when [y1] is
    greater than [text_height + 10] it goes to [y1 - 10], above the box. *)
Theorem label_placement (line_thickness : Z) (font_scale : Q) (f : frame)
    (det : Detection) (x1 y1 x2 y2 text_width text_height baseline : Z) :
  bbox det = (x1, y1, x2, y2) ->
  getTextSize (PersonDetector.label det) FONT_HERSHEY_SIMPLEX font_scale
    line_thickness = ((text_width, text_height), baseline) ->
  0 <= text_height ->
  let ty := PersonDetector.text_y y1 text_height in
  PersonDetector.paint line_thickness font_scale f det =
    putText
      (rectangle
         (rectangle f (x1, y1) (x2, y2) PersonDetector.bbox_color line_thickness)
         (x1, ty - text_height - baseline) (x1 + text_width + 4, ty + baseline)
         PersonDetector.text_bg_color (-1))
      (PersonDetector.label det) (x1 + 2, ty - 2) FONT_HERSHEY_SIMPLEX font_scale
      PersonDetector.text_color line_thickness LINE_AA /\
  (y1 < text_height + 10 -> ty = y1 + text_height + 10 /\ y1 < ty) /\
  (y1 > text_height + 10 -> ty = y1 - 10 /\ ty < y1).
Proof.
  intros Hbox Hsize Hheight ty.
  split; [unfold PersonDetector.paint; rewrite Hbox, Hsize; reflexivity |].
  subst ty. unfold PersonDetector.text_y.
  destruct (Z.gtb_spec (y1 - 10) text_height); split; intros Hy; lia.
Qed.

(** C8.  [draw_detections] writes into a copy: called twice on the same
    frame with the same detections, each call returns a new buffer, the two
    buffers hold the same pixels (those of [annotated], a function of the
    input pixels and the detections alone), the frame passed in still holds
    its pixels after each call, and so does every other buffer, the first
    result included. *)
Theorem draw_detections_pure (line_thickness : Z) (font_scale : Q)
    (src : nat) (dets : list Detection) (h : heap) (f : frame) :
  h !! src = Some f ->
  exists h1 out1 h2 out2,
    PersonDetector.draw_detections src dets line_thickness font_scale h =
      Some (h1, out1) /\
    PersonDetector.draw_detections src dets line_thickness font_scale h1 =
      Some (h2, out2) /\
    h1 !! src = Some f /\ h2 !! src = Some f /\
    (forall l, is_Some (h !! l) -> h1 !! l = h !! l /\ h2 !! l = h !! l) /\
    h1 !! out1 = Some (PersonDetector.annotated line_thickness font_scale f dets) /\
    h2 !! out2 = Some (PersonDetector.annotated line_thickness font_scale f dets) /\
    h2 !! out1 = h1 !! out1 /\
    out1 <> src /\ out2 <> src /\ out1 <> out2.
Proof.
  intros Hf.
  destruct (draw_detections_spec line_thickness font_scale src dets h f Hf)
    as (h1 & out1 & Hcall1 & Hnew1 & Hat1 & Hoff1).
  assert (Hne1 : out1 <> src) by (intros ->; congruence).
  assert (Hf1 : h1 !! src = Some f) by (rewrite Hoff1; [exact Hf | congruence]).
  destruct (draw_detections_spec line_thickness font_scale src dets h1 f Hf1)
    as (h2 & out2 & Hcall2 & Hnew2 & Hat2 & Hoff2).
  assert (Hne2 : out2 <> src) by (intros ->; congruence).
  assert (Hne12 : out1 <> out2) by (intros ->; congruence).
  assert (Hold : forall l, is_Some (h !! l) -> h1 !! l = h !! l /\ h2 !! l = h !! l).
  { intros l [x Hx].
    assert (Hl1 : l <> out1) by (intros ->; congruence).
    assert (Hh1 : h1 !! l = h !! l) by (apply Hoff1; exact Hl1).
    assert (Hl2 : l <> out2) by (intros ->; congruence).
    split; [exact Hh1 | rewrite Hoff2; assumption]. }
  exists h1, out1, h2, out2.
  split; [exact Hcall1 |]. split; [exact Hcall2 |].
  split; [exact Hf1 |]. split; [rewrite Hoff2; [exact Hf1 | congruence] |].
  split; [exact Hold |]. split; [exact Hat1 |]. split; [exact Hat2 |].
  split; [apply Hoff2; exact Hne12 |].
  split; [exact Hne1 |]. split; [exact Hne2 | exact Hne12].
Qed.

(** C6, the stored bounding box.  On a box 0.5 pixel wide, from
    x = 10.2 to x = 10.7, the check [x2 > x1] passes on the floats and the
    record stores the truncated corners (10, 5, 10, 9): a box of width 0. *)
Theorem detect_persons_thin_box :
  exists d,
    PersonDetector.detect_persons Demo.thin_detector (Demo.solid 0) = inr [d] /\
    bbox d = (10, 5, 10, 9) /\
    ~ valid_bbox d.
Proof.
  eexists. split; [reflexivity |]. split; [reflexivity |].
  intros Hvalid. vm_compute in Hvalid. destruct Hvalid as [Hx _]. discriminate Hx.
Qed.

End DetectorProperties.

(** * Concrete runs *)

(** The ten-frame scenario: a detection on the even frames only. *)
Example ten_frames :
  Demo.run Demo.ten Demo.processor None true = (inr Demo.ten_summary, Demo.ten_final).
Proof. vm_compute. reflexivity. Qed.

(** C1 on runs that raise: with an encoder that does not open, and with a
    detector that raises on the third frame, [process_video] raises and the
    decoder was not released; in the second run the encoder was not
    either. *)
Lemma process_video_raises_without_release :
  (fst (Demo.run Demo.ten_no_encoder Demo.processor None true) =
     inl (ValueError CannotCreateOutput "out/out.mp4") /\
   ~ released_once (snd (Demo.run Demo.ten_no_encoder Demo.processor None true))) /\
  (fst (Demo.run Demo.ten Demo.failing_processor None true) =
     inl (Raised "RuntimeError") /\
   ~ released_once (snd (Demo.run Demo.ten Demo.failing_processor None true))).
Proof.
  split; (split; [vm_compute; reflexivity |]);
    intros [Hcap _]; vm_compute in Hcap; discriminate Hcap.
Qed.

(** C3 on runs that raise.  Thirty frames, a callback supplied.  When the
    metadata announces no frame, the thirtieth iteration raises at the
    percentage; when the detector raises on the thirtieth frame, the
    iteration stops there.  Thirty frames were read in both runs and the
    callback was called 0 times, not [30 / 30] times. *)
Lemma progress_callback_not_called :
  (fst (Demo.run Demo.thirty_unannounced Demo.processor (Some Demo.quiet) true) =
     inl (ZeroDivisionError AtProgressPercent) /\
   cap_reads (snd (Demo.run Demo.thirty_unannounced Demo.processor
                     (Some Demo.quiet) true)) = 30%nat /\
   length (progress_calls
             (snd (Demo.run Demo.thirty_unannounced Demo.processor
                     (Some Demo.quiet) true))) <>
     (length (cap_frames Demo.thirty_unannounced) / 30)%nat) /\
  (fst (Demo.run Demo.thirty (Demo.failing_at 29) (Some Demo.quiet) true) =
     inl (Raised "RuntimeError") /\
   cap_reads (snd (Demo.run Demo.thirty (Demo.failing_at 29)
                     (Some Demo.quiet) true)) = 30%nat /\
   length (progress_calls
             (snd (Demo.run Demo.thirty (Demo.failing_at 29)
                     (Some Demo.quiet) true))) <>
     (length (cap_frames Demo.thirty) / 30)%nat).
Proof.
  split; (split; [vm_compute; reflexivity |]);
    (split; [vm_compute; reflexivity | vm_compute; discriminate]).
Qed.

Lemma frame_accounting_witness :
  setup Demo.ten Demo.processor initial =
    (inr (2, 2, 10, (0 # 10)%Q), tick (writer_on initial)) /\
  cap_frames Demo.ten =
    firstn 3 (cap_frames Demo.ten) ++ skipn 3 (cap_frames Demo.ten) /\
  @iterations Demo.cv2 Demo.fmt Demo.ten Demo.processor None true 10
    (firstn 3 (cap_frames Demo.ten)) no_frames (tick (writer_on initial)) =
    (inr (fst Demo.ten_after_3), snd Demo.ten_after_3) /\
  frame_count (fst Demo.ten_after_3) = 3 /\
  length (person_count_stats (fst Demo.ten_after_3)) = 3%nat /\
  length (written (snd Demo.ten_after_3)) = 3%nat.
Proof.
  assert (Hset : setup Demo.ten Demo.processor initial =
                   (inr (2, 2, 10, (0 # 10)%Q), tick (writer_on initial)))
    by (vm_compute; reflexivity).
  assert (Hsplit : cap_frames Demo.ten =
                     firstn 3 (cap_frames Demo.ten) ++ skipn 3 (cap_frames Demo.ten))
    by (vm_compute; reflexivity).
  assert (Hit : @iterations Demo.cv2 Demo.fmt Demo.ten Demo.processor None true 10
                  (firstn 3 (cap_frames Demo.ten)) no_frames (tick (writer_on initial)) =
                (inr (fst Demo.ten_after_3), snd Demo.ten_after_3))
    by (vm_compute; reflexivity).
  split; [exact Hset |]. split; [exact Hsplit |]. split; [exact Hit |].
  exact (proj1 (@frame_accounting Demo.cv2 Demo.fmt Demo.ten Demo.processor None true
                  2 2 10 (0 # 10)%Q (tick (writer_on initial))
                  (firstn 3 (cap_frames Demo.ten)) (skipn 3 (cap_frames Demo.ten))
                  (fst Demo.ten_after_3) (snd Demo.ten_after_3) Hset Hsplit Hit)).
Defined.

Lemma progress_reports_witness :
  Demo.run Demo.sixty Demo.processor (Some Demo.quiet) true =
    (inr Demo.sixty_summary, Demo.sixty_final) /\
  length (progress_calls Demo.sixty_final) =
    (length (cap_frames Demo.sixty) / 30)%nat /\
  map current (progress_calls Demo.sixty_final) = [30; 60].
Proof.
  assert (Hrun : Demo.run Demo.sixty Demo.processor (Some Demo.quiet) true =
                   (inr Demo.sixty_summary, Demo.sixty_final))
    by (vm_compute; reflexivity).
  split; [exact Hrun |].
  pose proof (@progress_reports Demo.cv2 Demo.fmt Demo.sixty Demo.processor
                Demo.quiet true Demo.sixty_summary Demo.sixty_final Hrun)
    as (Hcalls & Hlen & _).
  split; [exact Hlen |].
  rewrite Hcalls. vm_compute. reflexivity.
Defined.

Lemma empty_video_witness :
  cap_frames Demo.empty = [] /\
  cap_isOpened Demo.empty = true /\
  meta_fps Demo.empty <> 0 /\
  out_isOpened Demo.empty = true /\
  exists sm s,
    Demo.run Demo.empty Demo.processor (Some Demo.quiet) true = (inr sm, s) /\
    total_frames sm = 0 /\ written s = [].
Proof.
  assert (Hfps : meta_fps Demo.empty <> 0) by (vm_compute; discriminate).
  split; [reflexivity |]. split; [reflexivity |]. split; [exact Hfps |].
  split; [reflexivity |].
  destruct (@empty_video Demo.cv2 Demo.fmt Demo.empty Demo.processor
              (Some Demo.quiet) true eq_refl eq_refl Hfps eq_refl)
    as (sm & s & Hrun & (_ & _ & Hw & _) & Htot & _).
  exists sm, s. split; [exact Hrun |]. split; [exact Htot | exact Hw].
Defined.

Lemma person_statistics_witness :
  Demo.run Demo.ten Demo.processor None true = (inr Demo.ten_summary, Demo.ten_final) /\
  cap_frames Demo.ten <> [] /\
  (inject_Z (min_persons Demo.ten_summary) <= avg_persons Demo.ten_summary)%Q /\
  (avg_persons Demo.ten_summary <= inject_Z (max_persons Demo.ten_summary))%Q.
Proof.
  assert (Hrun : Demo.run Demo.ten Demo.processor None true =
                   (inr Demo.ten_summary, Demo.ten_final))
    by (vm_compute; reflexivity).
  assert (Hne : cap_frames Demo.ten <> []) by (vm_compute; discriminate).
  split; [exact Hrun |]. split; [exact Hne |].
  destruct (@person_statistics Demo.cv2 Demo.fmt Demo.ten Demo.processor None true
              Demo.ten_summary Demo.ten_final Hrun Hne)
    as (_ & _ & _ & _ & Hlo & Hhi).
  split; [exact Hlo | exact Hhi].
Defined.

Lemma label_placement_witness :
  (PersonDetector.text_y 5 13 = 28 /\ 5 < PersonDetector.text_y 5 13) /\
  (PersonDetector.text_y 50 13 = 40 /\ PersonDetector.text_y 50 13 < 50).
Proof.
  split.
  - apply (@label_placement Demo.cv2 Demo.fmt 2 (6 # 10)%Q (Demo.solid 0) Demo.near_top
             3 5 8 40 90 13 5); [reflexivity | reflexivity | lia | lia].
  - apply (@label_placement Demo.cv2 Demo.fmt 2 (6 # 10)%Q (Demo.solid 0) Demo.lower_down
             3 50 8 90 90 13 5); [reflexivity | reflexivity | lia | lia].
Defined.

Lemma draw_detections_pure_witness :
  Demo.one_frame !! 0%nat = Some (Demo.solid 7) /\
  exists h1 out1 h2 out2,
    @PersonDetector.draw_detections Demo.cv2 Demo.fmt 0 [Demo.near_top] 2 (6 # 10)%Q
      Demo.one_frame = Some (h1, out1) /\
    @PersonDetector.draw_detections Demo.cv2 Demo.fmt 0 [Demo.near_top] 2 (6 # 10)%Q
      h1 = Some (h2, out2) /\
    h2 !! 0%nat = Some (Demo.solid 7) /\
    h2 !! out2 = h1 !! out1.
Proof.
  assert (Hsrc : Demo.one_frame !! 0%nat = Some (Demo.solid 7)) by reflexivity.
  split; [exact Hsrc |].
  destruct (@draw_detections_pure Demo.cv2 Demo.fmt 2 (6 # 10)%Q 0 [Demo.near_top]
              Demo.one_frame (Demo.solid 7) Hsrc)
    as (h1 & out1 & h2 & out2 & Hc1 & Hc2 & _ & Hf2 & _ & Ho1 & Ho2 & _).
  exists h1, out1, h2, out2.
  split; [exact Hc1 |]. split; [exact Hc2 |]. split; [exact Hf2 |].
  rewrite Ho1, Ho2. reflexivity.
Defined.

Lemma zero_frame_rate_witness :
  cap_isOpened Demo.empty_no_rate = true /\
  meta_fps Demo.empty_no_rate = 0 /\
  Demo.run Demo.empty_no_rate Demo.processor (Some Demo.quiet) true =
    (inl (ZeroDivisionError AtDurationPrint), initial).
Proof.
  split; [reflexivity |]. split; [reflexivity |].
  apply (@zero_frame_rate Demo.cv2 Demo.fmt Demo.empty_no_rate Demo.processor
           (Some Demo.quiet) true eq_refl eq_refl).
Defined.

Lemma zero_total_frames_witness :
  meta_total Demo.thirty_unannounced = 0 /\
  (30 <= length (cap_frames Demo.thirty_unannounced))%nat /\
  Demo.run Demo.thirty_unannounced Demo.processor (Some Demo.quiet) true =
    (inl (ZeroDivisionError AtProgressPercent), Demo.thirty_final) /\
  nothing_else_raises Demo.thirty_unannounced Demo.processor true /\
  progress_calls Demo.thirty_final = [] /\
  cap_reads Demo.thirty_final = 30%nat /\
  length (written Demo.thirty_final) = 30%nat.
Proof.
  assert (Hlen : (30 <= length (cap_frames Demo.thirty_unannounced))%nat)
    by (vm_compute; lia).
  assert (Hrun : Demo.run Demo.thirty_unannounced Demo.processor (Some Demo.quiet) true =
                   (inl (ZeroDivisionError AtProgressPercent), Demo.thirty_final))
    by (vm_compute; reflexivity).
  assert (Hok : nothing_else_raises Demo.thirty_unannounced Demo.processor true).
  { split; [| split; [| split]].
    - intros f. simpl. unfold PersonDetector.detect_persons. simpl.
      unfold Demo.even_model. destruct (Z.even (Demo.grey f)); eexists; reflexivity.
    - intros f ds. eexists. reflexivity.
    - intros l f. reflexivity.
    - right. intros k. unfold Qlt. simpl. lia. }
  split; [reflexivity |]. split; [exact Hlen |]. split; [exact Hrun |].
  split; [exact Hok |].
  destruct (@zero_total_frames Demo.cv2 Demo.fmt Demo.thirty_unannounced Demo.processor
              Demo.quiet true _ _ eq_refl Hlen Hrun)
    as (_ & Hcalls & Hrest).
  split; [exact Hcalls |].
  destruct (Hrest eq_refl ltac:(vm_compute; discriminate) eq_refl Hok) as (_ & Hr & Hw).
  split; [exact Hr | exact Hw].
Defined.

(** * Further properties *)

Import Behaviour.

(** ** Truncation *)

Lemma int_nonneg (q : Q) : (0 <= q)%Q -> int q = Qfloor q.
Proof.
  destruct q as [n d]. unfold Qle, int, Qfloor. simpl. intros Hn.
  apply Z.quot_div_nonneg; lia.
Qed.

Lemma int_nonpos (q : Q) : (q <= 0)%Q -> int q = Qceiling q.
Proof.
  destruct q as [n d]. unfold Qle, int, Qceiling, Qfloor, Qopp. simpl. intros Hn.
  rewrite <- (Z.quot_div_nonneg (- n) (Z.pos d)) by lia.
  rewrite Z.quot_opp_l by lia. lia.
Qed.

Lemma int_monotone (a b : Q) : (a <= b)%Q -> int a <= int b.
Proof.
  intros Hab.
  destruct (Qlt_le_dec a 0) as [Ha | Ha]; destruct (Qlt_le_dec b 0) as [Hb | Hb].
  - rewrite !int_nonpos by lra. apply Qceiling_resp_le. exact Hab.
  - rewrite (int_nonpos a), (int_nonneg b) by lra.
    assert (H1 : Qceiling a <= Qceiling 0) by (apply Qceiling_resp_le; lra).
    assert (H2 : Qfloor 0 <= Qfloor b) by (apply Qfloor_resp_le; lra).
    change (Qceiling 0) with 0 in H1. change (Qfloor 0) with 0 in H2. lia.
  - lra.
  - rewrite !int_nonneg by lra. apply Qfloor_resp_le. exact Hab.
Qed.

(** ** The detector *)

Lemma box_detection_filter (box : Box) :
  PersonDetector.box_detection box =
  if passes box then [record_of box] else [].
Proof.
  unfold PersonDetector.box_detection, passes, record_of.
  destruct (xyxy box) as [[[x1 y1] x2] y2]. reflexivity.
Qed.

Lemma flat_map_box_detection (bs : list Box) :
  flat_map PersonDetector.box_detection bs = map record_of (List.filter passes bs).
Proof.
  induction bs as [| b bs IH]; [reflexivity |].
  cbn [flat_map List.filter]. rewrite box_detection_filter, IH.
  destruct (passes b); reflexivity.
Qed.

Lemma result_detections_filter (r : YoloResult) :
  PersonDetector.result_detections r =
  map record_of
    (List.filter passes (match boxes r with Some bs => bs | None => [] end)).
Proof.
  unfold PersonDetector.result_detections. destruct (boxes r) as [bs |]; [| reflexivity].
  destruct bs as [| b bs]; [reflexivity |].
  cbn [length Nat.eqb]. apply flat_map_box_detection.
Qed.

(** X1.  [detect_persons] passes an exception of the model on; otherwise it
    returns, in the order of the model and result after result, the record
    of each box whose float corners pass the check, and nothing else: the
    two nested loops and the guard on empty results amount to one filter. *)
Theorem detect_persons_filter (self : PersonDetector.t) (f : frame) :
  PersonDetector.detect_persons self f =
  match PersonDetector.model_predict self f (PersonDetector.conf_threshold self)
          (PersonDetector.iou_threshold self)
          [PersonDetector.person_class_id self] (PersonDetector.device self) with
  | inl e => inl e
  | inr results => inr (map record_of (List.filter passes (all_boxes results)))
  end.
Proof.
  unfold PersonDetector.detect_persons.
  destruct (PersonDetector.model_predict _ _ _ _ _ _) as [e | results]; [reflexivity |].
  f_equal. unfold all_boxes.
  induction results as [| r results IH]; [reflexivity |].
  cbn [flat_map]. rewrite List.filter_app, map_app, <- IH, result_detections_filter.
  reflexivity.
Qed.

(** X2.  No record returned by [detect_persons] is inside out: its stored
    corners satisfy [x1 <= x2] and [y1 <= y2] (truncation keeps the order
    of the floats, it does not keep it strict), and there are at most as
    many records as the model gave boxes. *)
Theorem detect_persons_ordered (self : PersonDetector.t) (f : frame)
    (results : list YoloResult) (ds : list Detection) :
  PersonDetector.model_predict self f (PersonDetector.conf_threshold self)
    (PersonDetector.iou_threshold self)
    [PersonDetector.person_class_id self] (PersonDetector.device self) =
    inr results ->
  PersonDetector.detect_persons self f = inr ds ->
  (forall d, In d ds ->
     let '(x1, y1, x2, y2) := bbox d in x1 <= x2 /\ y1 <= y2) /\
  (length ds <= length (all_boxes results))%nat.
Proof.
  intros Hmodel Hds. split.
  - intros d Hd.
    destruct (detect_persons_sound self f ds d Hds Hd) as [box Hbox].
    destruct (xyxy box) as [[[x1 y1] x2] y2].
    destruct Hbox as (Hx & Hy & -> & _).
    split; apply int_monotone; lra.
  - unfold PersonDetector.detect_persons in Hds. rewrite Hmodel in Hds.
    inversion Hds; subst ds; clear Hds.
    unfold all_boxes. clear Hmodel.
    induction results as [| r results IH]; [simpl; lia |].
    cbn [flat_map]. rewrite !length_app, result_detections_filter, length_map.
    pose proof (List.filter_length_le passes
                  (match boxes r with Some bs => bs | None => [] end)). lia.
Qed.

Section DrawingFurther.
Context `{Cv2} `{PyFormat}.
Variables (line_thickness : Z) (font_scale : Q).

Lemma annotated_app (f : frame) (ds1 ds2 : list Detection) :
  PersonDetector.annotated line_thickness font_scale f (ds1 ++ ds2) =
  PersonDetector.annotated line_thickness font_scale
    (PersonDetector.annotated line_thickness font_scale f ds1) ds2.
Proof. unfold PersonDetector.annotated. apply fold_left_app. Qed.

(** X3.  Annotating in two steps is annotating once: drawing [ds1] on a
    frame and then [ds2] on the result gives a buffer with the pixels of
    one call with [ds1 ++ ds2], and the frame first passed in is untouched
    by all three calls. *)
Theorem draw_detections_compose (src : nat) (ds1 ds2 : list Detection)
    (h : heap) (f : frame) :
  h !! src = Some f ->
  exists h1 o1 h2 o2 h3 o3,
    PersonDetector.draw_detections src ds1 line_thickness font_scale h =
      Some (h1, o1) /\
    PersonDetector.draw_detections o1 ds2 line_thickness font_scale h1 =
      Some (h2, o2) /\
    PersonDetector.draw_detections src (ds1 ++ ds2) line_thickness font_scale h =
      Some (h3, o3) /\
    h2 !! o2 = h3 !! o3 /\
    h3 !! o3 =
      Some (PersonDetector.annotated line_thickness font_scale f (ds1 ++ ds2)) /\
    h1 !! src = Some f /\ h2 !! src = Some f /\ h3 !! src = Some f.
Proof.
  intros Hf.
  destruct (draw_detections_spec line_thickness font_scale src ds1 h f Hf)
    as (h1 & o1 & Hc1 & Hnew1 & Hat1 & Hoff1).
  destruct (draw_detections_spec line_thickness font_scale o1 ds2 h1 _ Hat1)
    as (h2 & o2 & Hc2 & Hnew2 & Hat2 & Hoff2).
  destruct (draw_detections_spec line_thickness font_scale src (ds1 ++ ds2) h f Hf)
    as (h3 & o3 & Hc3 & Hnew3 & Hat3 & Hoff3).
  assert (Hs1 : h1 !! src = Some f).
  { rewrite Hoff1; [exact Hf | intros ->; congruence]. }
  exists h1, o1, h2, o2, h3, o3.
  split; [exact Hc1 |]. split; [exact Hc2 |]. split; [exact Hc3 |].
  split; [rewrite Hat2, Hat3, annotated_app; reflexivity |].
  split; [exact Hat3 |]. split; [exact Hs1 |].
  split; [rewrite Hoff2; [exact Hs1 | intros ->; congruence] |].
  rewrite Hoff3; [exact Hf | intros ->; congruence].
Qed.

(** X4.  With no detection [draw_detections] still returns a new buffer,
    holding the pixels of the frame: the store it leaves is the one it
    found with that one buffer added, so what the caller later writes on
    the result does not reach the frame. *)
Theorem draw_detections_nothing (src : nat) (h : heap) (f : frame) :
  h !! src = Some f ->
  exists out,
    PersonDetector.draw_detections src [] line_thickness font_scale h =
      Some (<[out := f]> h, out) /\
    h !! out = None /\ out <> src /\
    forall s org c t,
      cv2_putText out s org FONT_HERSHEY_SIMPLEX font_scale c t LINE_AA
        (<[out := f]> h) !! src = Some f.
Proof.
  intros Hf. exists (fresh (dom h)).
  assert (Hfresh : h !! fresh (dom h) = None).
  { apply not_elem_of_dom. apply is_fresh. }
  assert (Hne : fresh (dom h) <> src) by (intros Heq; rewrite Heq in Hfresh; congruence).
  split; [unfold PersonDetector.draw_detections, np_copy; rewrite Hf; reflexivity |].
  split; [exact Hfresh |]. split; [exact Hne |].
  intros s org c t. unfold cv2_putText.
  rewrite lookup_alter_ne by exact Hne.
  rewrite lookup_insert_ne by exact Hne. exact Hf.
Qed.

(** X5.  What [draw_detections] hands to OpenCV for the label of a box whose
    top is inside the image, for a label at least 2 pixels high: the filled
    background goes from a corner [p1] to a corner [p2] in order, the text
    is written at an origin inside that rectangle, and the ordinate of the
    text line exceeds the text height by at least 1. *)
Theorem label_geometry (f : frame) (det : Detection)
    (x1 y1 x2 y2 text_width text_height baseline : Z) :
  bbox det = (x1, y1, x2, y2) ->
  getTextSize (PersonDetector.label det) FONT_HERSHEY_SIMPLEX font_scale
    line_thickness = ((text_width, text_height), baseline) ->
  0 <= y1 -> 0 <= text_width -> 2 <= text_height -> 0 <= baseline ->
  exists p1 p2 org : point,
    PersonDetector.paint line_thickness font_scale f det =
      putText
        (rectangle
           (rectangle f (x1, y1) (x2, y2) PersonDetector.bbox_color line_thickness)
           p1 p2 PersonDetector.text_bg_color (-1))
        (PersonDetector.label det) org FONT_HERSHEY_SIMPLEX font_scale
        PersonDetector.text_color line_thickness LINE_AA /\
    (fst p1 <= fst org <= fst p2 /\ snd p1 <= snd org <= snd p2) /\
    1 <= snd org + 2 - text_height.
Proof.
  intros Hbox Hsize Hy Hw Hh Hb.
  eexists (_, _), (_, _), (_, _).
  split; [unfold PersonDetector.paint; rewrite Hbox, Hsize; reflexivity |].
  cbn [fst snd]. unfold PersonDetector.text_y.
  destruct (Z.gtb_spec (y1 - 10) text_height); repeat split; lia.
Qed.

End DrawingFurther.

(** ** The pipeline *)

Section PipelineFurther.
Context `{Cv2} `{PyFormat}.
Variables (w : world) (self : t) (progress_callback : option callback)
  (show_fps : bool).

Lemma report_written total fc ft s r s' :
  report progress_callback total fc ft s = (r, s') -> written s' = written s.
Proof.
  unfold report. destruct progress_callback as [cb |];
    [| intros Hr; inversion Hr; reflexivity].
  destruct (fc mod 30 =? 0); [| intros Hr; inversion Hr; reflexivity].
  unfold bind, lift. destruct (truediv AtProgressPercent _ _) as [e | ratio];
    [intros Hr; inversion Hr; reflexivity |].
  destruct (if gt ft 0 then _ else _) as [[e | fps] s1] eqn:Hfps.
  - destruct (gt ft 0); [| discriminate Hfps].
    unfold truediv in Hfps. destruct (Qeq_bool ft 0); inversion Hfps; subst.
    intros Hr; inversion Hr; reflexivity.
  - assert (s1 = s) as ->.
    { destruct (gt ft 0); [| inversion Hfps; reflexivity].
      unfold truediv in Hfps. destruct (Qeq_bool ft 0); inversion Hfps; reflexivity. }
    unfold invoke. destruct (cb _); intros Hr; inversion Hr; reflexivity.
Qed.

Lemma report_reads total fc ft s r s' :
  report progress_callback total fc ft s = (r, s') -> cap_reads s' = cap_reads s.
Proof.
  unfold report. destruct progress_callback as [cb |];
    [| intros Hr; inversion Hr; reflexivity].
  destruct (fc mod 30 =? 0); [| intros Hr; inversion Hr; reflexivity].
  unfold bind, lift. destruct (truediv AtProgressPercent _ _) as [e | ratio];
    [intros Hr; inversion Hr; reflexivity |].
  destruct (gt ft 0).
  - destruct (truediv AtCurrentFps 1%Q ft); [intros Hr; inversion Hr; reflexivity |].
    unfold invoke. destruct (cb _); intros Hr; inversion Hr; reflexivity.
  - unfold ret, invoke. destruct (cb _); intros Hr; inversion Hr; reflexivity.
Qed.

(** An iteration does not read a frame: [cap.read()] is at the head of the
    loop. *)
Lemma loop_body_reads total f lv s r s' :
  loop_body w self progress_callback show_fps total f lv s = (r, s') ->
  cap_reads s' = cap_reads s.
Proof.
  apply (keeps_loop_body w self progress_callback show_fps total
           (fun a b => cap_reads b = cap_reads a)).
  - reflexivity.
  - intros s1 s2 s3 H12 H23. congruence.
  - reflexivity.
  - reflexivity.
  - reflexivity.
  - intros fc' ft' a ra b Hr. exact (report_reads _ _ _ _ _ _ Hr).
Qed.

Lemma appended_refl s : appended s s.
Proof. exists []. symmetry. apply app_nil_r. Qed.

Lemma appended_trans s1 s2 s3 : appended s1 s2 -> appended s2 s3 -> appended s1 s3.
Proof.
  intros [m1 H1] [m2 H2]. exists (m1 ++ m2). rewrite H2, H1. symmetry. apply app_assoc.
Qed.

(** Whatever the loop does, the frames already written stay written. *)
Lemma loop_appends total frames lv :
  keeps appended (loop w self progress_callback show_fps total frames lv).
Proof.
  apply keeps_loop;
    first [ exact appended_refl | exact appended_trans
          | intros; apply appended_refl
          | idtac ].
  - intros f s. exists [f]. reflexivity.
  - intros fc ft s r s' Hr. apply report_written in Hr.
    exists []. rewrite Hr. symmetry. apply app_nil_r.
Qed.

(** An iteration without the overlay writes what the detector made of the
    frame. *)
Lemma loop_body_plain total f lv s lv' s' :
  show_fps = false \/ processing_times lv = [] ->
  loop_body w self progress_callback show_fps total f lv s = (inr lv', s') ->
  written s' = written s ++ [annotate self f].
Proof.
  intros Hplain Hrun. unfold loop_body in Hrun.
  apply bind_inr in Hrun as (frame_start & s1 & Ht1 & Hrun).
  apply bind_inr in Hrun as (dets & s2 & Hdet & Hrun).
  apply bind_inr in Hrun as (o1 & s3 & Hdraw & Hrun).
  apply bind_inr in Hrun as (o2 & s4 & Hover & Hrun).
  apply bind_inr in Hrun as (u & s5 & Hwrite & Hrun).
  apply bind_inr in Hrun as (now & s6 & Ht2 & Hrun).
  apply bind_inr in Hrun as (u' & s7 & Hrep & Hrun).
  inversion Ht1; subst frame_start s1; clear Ht1.
  unfold detect in Hdet. inversion Hdet as [[Hd Hs2]]; subst s2; clear Hdet.
  unfold lift in Hdraw. inversion Hdraw as [[Ho Hs3]]; subst s3; clear Hdraw.
  assert (o2 = o1 /\ s4 = count_detect (tick s)) as [-> ->].
  { unfold overlay in Hover.
    destruct Hplain as [Hoff | Hnil].
    - rewrite Hoff in Hover. simpl in Hover. inversion Hover; auto.
    - rewrite Hnil in Hover. simpl in Hover. rewrite andb_false_r in Hover.
      inversion Hover; auto. }
  unfold write in Hwrite. destruct (out_write w _ o1); [discriminate |].
  inversion Hwrite; subst s5; clear Hwrite.
  inversion Ht2; subst now s6; clear Ht2.
  inversion Hrun; subst lv' s'; clear Hrun.
  apply report_written in Hrep. rewrite Hrep. simpl.
  unfold annotate. rewrite Hd, Ho. reflexivity.
Qed.

Lemma iterations_plain total frames :
  forall lv s lv' s',
  show_fps = false ->
  iterations w self progress_callback show_fps total frames lv s = (inr lv', s') ->
  written s' = written s ++ map (annotate self) frames.
Proof.
  induction frames as [| f rest IH]; intros lv s lv' s' Hoff Hrun; simpl in Hrun.
  - inversion Hrun; subst. symmetry. apply app_nil_r.
  - apply bind_inr in Hrun as ([] & s1 & Hread & Hrun).
    apply bind_inr in Hrun as (lv1 & s2 & Hbody & Hrun).
    inversion Hread; subst s1; clear Hread.
    apply loop_body_plain in Hbody; [| left; exact Hoff].
    apply IH in Hrun; [| exact Hoff].
    rewrite Hrun, Hbody. simpl. rewrite <- app_assoc. reflexivity.
Qed.

(** X6.  The set-up fails in a fixed order.  A decoder that does not open
    raises [ValueError] at once: nothing is created, read or timed.  With
    the decoder open and a frame rate other than 0, an encoder that does not
    open raises [ValueError] right after its creation: no frame is read, the
    clock is not read, the detector is not called. *)
Theorem open_failures :
  (cap_isOpened w = false ->
   run w self progress_callback show_fps =
     (inl (ValueError CannotOpenInput (input_path self)), initial)) /\
  (cap_isOpened w = true -> meta_fps w <> 0 -> out_isOpened w = false ->
   run w self progress_callback show_fps =
     (inl (ValueError CannotCreateOutput (output_path self)), writer_on initial)).
Proof.
  split.
  - intros Hcap. unfold run, process_video, bind, setup. rewrite Hcap. reflexivity.
  - intros Hcap Hfps Hout. unfold run, process_video, bind.
    destruct (setup w self initial) as [rs s0] eqn:Hset.
    apply setup_inv in Hset
      as [(_ & Hc & _) | [(_ & _ & Hf & _) | [(-> & _ & _ & _ & ->)
                                             | (_ & _ & _ & Ho & _)]]];
      [congruence | contradiction | reflexivity | congruence].
Qed.


(** X8.  Without the overlay, the output of a run that returns is the
    input, frame by frame and in the same order, each frame as the detector
    annotated it. *)
Theorem output_is_annotated_input (sm : Summary) (s : state) :
  show_fps = false ->
  run w self progress_callback show_fps = (inr sm, s) ->
  written s = map (annotate self) (cap_frames w).
Proof.
  intros Hoff Hrun.
  apply run_inv in Hrun
    as [(e & Hr & _) | [(e & Hr & _)
                       | (sm' & lv & s1 & _ & _ & _ & _ & Hloop & -> & _)]];
    try discriminate Hr.
  rewrite loop_iterations in Hloop.
  apply bind_inr in Hloop as (lv1 & s2 & Hit & Hread).
  inversion Hread; subst lv1 s1; clear Hread.
  apply iterations_plain in Hit; [| exact Hoff]. exact Hit.
Qed.

(** X9.  The first frame written never carries the FPS line, whatever
    [show_fps] says: in any run that gets through its first iteration,
    returning or not, the output starts with the first frame as the detector
    annotated it, and nothing later changes that. *)
Theorem first_frame_has_no_overlay (f0 : frame) (rest : list frame)
    (r : result Summary) (s : state) :
  cap_frames w = f0 :: rest ->
  run w self progress_callback show_fps = (r, s) ->
  (2 <= cap_reads s)%nat ->
  written s !! 0%nat = Some (annotate self f0).
Proof.
  intros Hframes Hrun Hreads.
  assert (Hloop : exists r' s1,
            loop w self progress_callback show_fps (meta_total w) (f0 :: rest)
              no_frames (tick (writer_on initial)) = (r', s1) /\
            written s = written s1 /\ (cap_reads s = cap_reads s1)).
  { apply run_inv in Hrun
      as [(e & _ & Hset) | [(e & _ & _ & _ & _ & Hloop)
                           | (sm & lv & s1 & _ & _ & _ & _ & Hloop & -> & _)]].
    - apply setup_raises in Hset as (_ & _ & Hr & _). lia.
    - rewrite Hframes in Hloop. eauto.
    - rewrite Hframes in Hloop. exists (inr lv), s1. auto. }
  destruct Hloop as (r' & s1 & Hloop & -> & Hreads').
  rewrite Hreads' in Hreads. clear Hrun Hreads'.
  simpl in Hloop. unfold bind at 1 in Hloop. unfold read at 1 in Hloop.
  cbn beta iota in Hloop. unfold bind at 1 in Hloop.
  destruct (loop_body w self progress_callback show_fps (meta_total w) f0 no_frames
              (count_read (tick (writer_on initial)))) as [[e | lv1] s2] eqn:Hbody.
  - inversion Hloop; subst r' s1; clear Hloop. exfalso.
    apply loop_body_reads in Hbody. simpl in Hbody.
    lia.
  - apply loop_body_plain in Hbody; [| right; reflexivity].
    apply loop_appends in Hloop as [more Hmore].
    rewrite Hmore, Hbody. reflexivity.
Qed.

(** X10.  An exception of the detector, from detection or from annotation,
    is not caught: when it comes on the frame after [pre], the run raises
    that very exception; the frames of [pre] were written and stay written,
    the failing frame is not written, no later frame is read. *)
Theorem detector_failure_propagates (width height total : Z) (start_time : Q)
    (s0 : state) (pre post : list frame) (f : frame) (e : exn)
    (lv : locals) (s : state) :
  setup w self initial = (inr (width, height, total, start_time), s0) ->
  cap_frames w = pre ++ f :: post ->
  iterations w self progress_callback show_fps total pre no_frames s0 = (inr lv, s) ->
  (detect_persons (detector self) f = inl e \/
   exists ds, detect_persons (detector self) f = inr ds /\
              draw_detections (detector self) f ds = inl e) ->
  let s' := count_detect (tick (count_read s)) in
  run w self progress_callback show_fps = (inl e, s') /\
  length (written s') = length pre /\
  cap_reads s' = S (length pre).
Proof.
  intros Hset Hframes Hit Hfail s'.
  pose proof (setup_inv _ _ _ _ _ Hset)
    as [(Hr & _) | [(Hr & _) | [(Hr & _) | (Hr & _ & _ & _ & ->)]]];
    try discriminate Hr.
  pose proof (iterations_ok _ _ _ _ _ _ _ _ _ _ Hit) as (_ & _ & Hw & _ & Hreads & _).
  split; [| subst s'; simpl; rewrite Hw, Hreads; simpl; split; reflexivity].
  unfold run, process_video, bind. rewrite Hset, Hframes, loop_app.
  unfold bind. rewrite Hit. simpl loop.
  unfold bind, read, loop_body, bind, time, detect, lift.
  destruct Hfail as [Hdet | (ds & Hdet & Hdraw)].
  - rewrite Hdet. reflexivity.
  - rewrite Hdet, Hdraw. reflexivity.
Qed.

End PipelineFurther.

(** ** The progress callback *)

Section CallbackFurther.
Context `{Cv2} `{PyFormat}.
Variables (w : world) (self : t) (cb : callback) (show_fps : bool).

Lemma report_skips total fc ft s :
  fc mod 30 <> 0 -> report (Some cb) total fc ft s = (inr tt, s).
Proof.
  intros Hmod. unfold report. apply Z.eqb_neq in Hmod. rewrite Hmod. reflexivity.
Qed.

Lemma report_calls_back total fc ft s :
  total <> 0 -> fc mod 30 = 0 ->
  report (Some cb) total fc ft s = invoke cb (progress_args_at total fc ft) s.
Proof.
  intros Htotal Hmod. unfold report. apply Z.eqb_eq in Hmod. rewrite Hmod.
  unfold bind, lift, truediv.
  assert (Hnz : Qeq_bool (inject_Z total) 0 = false).
  { destruct (Qeq_bool _ 0) eqn:Heq; [| reflexivity].
    apply Qeq_bool_iff in Heq. unfold Qeq in Heq. simpl in Heq. lia. }
  rewrite Hnz. unfold progress_args_at, current_fps.
  destruct (gt ft 0) eqn:Hgt; [rewrite (gt_0_not_zero _ Hgt) |]; reflexivity.
Qed.

Lemma loop_raises_in_callback total (e : exn) frames :
  forall (c : nat) lv s,
  nothing_else_raises w self show_fps ->
  total <> 0 ->
  (forall a, cb a = Some e) ->
  frame_count lv = Z.of_nat c ->
  (c < 30)%nat -> (30 <= c + length frames)%nat ->
  show_fps = false \/ Forall (fun t => (0 < t)%Q) (processing_times lv) ->
  exists s' a,
    loop w self (Some cb) show_fps total frames lv s = (inl e, s') /\
    length (written s') = (length (written s) + (30 - c))%nat /\
    cap_reads s' = (cap_reads s + (30 - c))%nat /\
    progress_calls s' = progress_calls s ++ [a] /\
    current a = 30.
Proof.
  induction frames as [| f rest IH]; intros c lv s Hok Htotal Hcb Hfc Hc Hlen Hpos;
    [simpl in Hlen; lia |].
  simpl loop. unfold bind at 1. unfold read at 1. cbn beta iota.
  unfold bind at 1.
  destruct (loop_body_runs w self cb show_fps total f lv (count_read s) Hok Hpos)
    as [o Hbody].
  cbn zeta in Hbody. rewrite Hbody, Hfc.
  destruct (Nat.eq_dec (S c) 30%nat) as [Hlast | Hmore].
  - replace (Z.of_nat c + 1) with 30 by lia.
    rewrite report_calls_back by (exact Htotal || reflexivity).
    unfold invoke. rewrite Hcb.
    eexists _, _. split; [reflexivity |]. simpl. rewrite length_app. simpl.
    repeat split; lia.
  - rewrite report_skips by (rewrite Z.mod_small; lia).
    edestruct (IH (S c)) as (s' & a & Hloop & Hw & Hr & Hcalls & Hcur);
      [exact Hok | exact Htotal | exact Hcb | | | | | rewrite Hloop].
    + simpl. lia.
    + lia.
    + simpl in Hlen. lia.
    + destruct Hok as (_ & _ & _ & [Hoff | Hclock]); [left; exact Hoff |].
      destruct Hpos as [Hoff | Hpos]; [left; exact Hoff | right]. simpl.
      apply Forall_app. split; [exact Hpos |]. constructor; [| constructor].
      specialize (Hclock (clock_reads s)). lra.
    + exists s', a. split; [reflexivity |]. rewrite Hw, Hr, Hcalls. simpl.
      rewrite length_app. simpl. repeat split; try lia; try exact Hcur.
Qed.

(** X11.  An exception of the progress callback is not caught either.  With
    at least 30 frames, a metadata total other than 0 and nothing else
    raising, a callback that raises stops the run at its first call: the
    run raises that exception after reading and writing exactly 30 frames,
    the callback having been called once, with frame count 30. *)
Theorem callback_failure_propagates (e : exn) (r : result Summary) (s : state) :
  cap_isOpened w = true -> meta_fps w <> 0 -> out_isOpened w = true ->
  nothing_else_raises w self show_fps ->
  meta_total w <> 0 ->
  (30 <= length (cap_frames w))%nat ->
  (forall a, cb a = Some e) ->
  run w self (Some cb) show_fps = (r, s) ->
  r = inl e /\
  cap_reads s = 30%nat /\ length (written s) = 30%nat /\
  exists a, progress_calls s = [a] /\ current a = 30.
Proof.
  intros Hcap Hfps Hout Hok Htotal Hlen Hcb Hrun.
  destruct (loop_raises_in_callback (meta_total w) e (cap_frames w) O no_frames
              (tick (writer_on initial)) Hok Htotal Hcb eq_refl ltac:(lia) ltac:(lia)
              (or_intror (List.Forall_nil _)))
    as (s' & a & Hloop & Hw & Hr & Hcalls & Hcur).
  unfold run, process_video, bind in Hrun.
  destruct (setup w self initial) as [rs s0] eqn:Hset.
  apply setup_inv in Hset
    as [(_ & Hc & _) | [(_ & _ & Hf & _) | [(_ & _ & _ & Ho & _)
                                           | (-> & _ & _ & _ & ->)]]];
    [congruence | contradiction | congruence |].
  rewrite Hloop in Hrun. inversion Hrun; subst r s; clear Hrun.
  split; [reflexivity |]. split; [exact Hr |]. split; [exact Hw |].
  exists a. split; [exact Hcalls | exact Hcur].
Qed.

(** X12.  The percentage passed to the callback is only as good as the
    metadata.  In a run that returns, with a positive metadata total, every
    percentage is positive and they increase from call to call; they stay
    at or below 100 when the metadata total is at least the number of
    frames; a call made at a frame count beyond the metadata total gets a
    percentage above 100. *)
Theorem percent_follows_metadata (sm : Summary) (s : state) :
  run w self (Some cb) show_fps = (inr sm, s) ->
  0 < meta_total w ->
  (forall i a, progress_calls s !! i = Some a ->
     (0 < percent a)%Q /\
     (Z.of_nat (length (cap_frames w)) <= meta_total w -> (percent a <= 100)%Q) /\
     (meta_total w < current a -> (100 < percent a)%Q)) /\
  (forall i j a b, (i < j)%nat ->
     progress_calls s !! i = Some a -> progress_calls s !! j = Some b ->
     (percent a < percent b)%Q).
Proof.
  intros Hrun Htotal.
  apply run_inv in Hrun
    as [(e & Hr & _) | [(e & Hr & _)
                       | (sm' & lv & s1 & _ & _ & _ & _ & Hloop & -> & _)]];
    try discriminate Hr.
  apply loop_ok in Hloop as (_ & _ & _ & _ & _ & _ & Hcalls).
  simpl in Hcalls. rewrite calls_from_start in Hcalls. simpl progress_calls.
  set (n := length (cap_frames w)) in *.
  assert (Hlookup : forall i a, progress_calls s1 !! i = Some a ->
            (30 * S i <= n)%nat /\
            percent a = (inject_Z (Z.of_nat (30 * S i)) / inject_Z (meta_total w) * 100)%Q /\
            current a = Z.of_nat (30 * S i)).
  { intros i a Hi. rewrite Hcalls, list_lookup_fmap in Hi.
    destruct (seq 1 (n / 30) !! i) as [j |] eqn:Hj; [| discriminate Hi].
    apply lookup_seq in Hj as [-> Hlt]. inversion Hi.
    pose proof (Nat.div_mod_eq n 30) as Hn.
    split; [lia | split; reflexivity]. }
  assert (Hpos : (0 < inject_Z (meta_total w))%Q) by (rewrite <- (Zlt_Qlt 0); exact Htotal).
  assert (Hscale : forall k : Z,
            (inject_Z k / inject_Z (meta_total w) * 100 ==
             (100 * inject_Z k) / inject_Z (meta_total w))%Q)
    by (intros k; unfold Qdiv; ring).
  split.
  - intros i a Hi. apply Hlookup in Hi as (Hle & Hp & Hc). rewrite Hp, Hc, Hscale.
    split; [| split].
    + apply Qlt_shift_div_l; [exact Hpos |].
      assert (0 < inject_Z (Z.of_nat (30 * S i)))%Q by (rewrite <- (Zlt_Qlt 0); lia). lra.
    + intros Hn. apply Qle_shift_div_r; [exact Hpos |].
      assert (inject_Z (Z.of_nat (30 * S i)) <= inject_Z (meta_total w))%Q
        by (rewrite <- Zle_Qle; lia). lra.
    + intros Hover. apply Qlt_shift_div_l; [exact Hpos |].
      assert (inject_Z (meta_total w) < inject_Z (Z.of_nat (30 * S i)))%Q
        by (rewrite <- Zlt_Qlt; exact Hover). lra.
  - intros i j a b Hij Hi Hj.
    apply Hlookup in Hi as (_ & Hpa & _). apply Hlookup in Hj as (_ & Hpb & _).
    rewrite Hpa, Hpb.
    assert (Hlt : (inject_Z (Z.of_nat (30 * S i)) < inject_Z (Z.of_nat (30 * S j)))%Q)
      by (rewrite <- Zlt_Qlt; lia).
    apply Qmult_lt_compat_r; [lra |].
    unfold Qdiv. apply Qmult_lt_compat_r; [apply Qinv_lt_0_compat; exact Hpos | exact Hlt].
Qed.

End CallbackFurther.

(** ** The FPS line and the clock *)

Section OverlayFurther.
Context `{Cv2} `{PyFormat}.
Variables (w : world) (self : t) (progress_callback : option callback).

Lemma report_first total ft s :
  report progress_callback total (0 + 1) ft s = (inr tt, s).
Proof. unfold report. destruct progress_callback; reflexivity. Qed.

(** The overlay divides by the mean of the window: a window of durations
    that sum to 0 raises. *)
Lemma overlay_zero_mean (times : list Q) (ds : list Detection) (o : frame) s :
  times <> [] ->
  (sumQ (last_n 30 times) == 0)%Q ->
  overlay true times ds o s = (inl (ZeroDivisionError AtRollingFps), s).
Proof.
  intros Hne Hsum. unfold overlay.
  assert (Hlen : (0 <? length times)%nat = true).
  { apply Nat.ltb_lt. destruct times; [congruence | simpl; lia]. }
  rewrite Hlen. cbn [andb].
  assert (Hwin : last_n 30 times <> []).
  { apply last_n_not_nil; [lia | exact Hne]. }
  destruct (last_n 30 times) as [| t0 win] eqn:Hw; [congruence |].
  unfold bind, lift, truediv. cbn [length]. rewrite length_not_zero.
  assert (Hmean : Qeq_bool (sumQ (t0 :: win) / inject_Z (Z.of_nat (S (length win)))) 0
                  = true).
  { apply Qeq_bool_iff. rewrite Hsum. unfold Qdiv. ring. }
  rewrite Hmean. reflexivity.
Qed.

Lemma loop_body_to_overlay total (f : frame) (ds : list Detection) (o : frame)
    (show_fps : bool) lv s :
  detect_persons (detector self) f = inr ds ->
  draw_detections (detector self) f ds = inr o ->
  loop_body w self progress_callback show_fps total f lv s =
  match overlay show_fps (processing_times lv) ds o (count_detect (tick s)) with
  | (inl e, s1) => (inl e, s1)
  | (inr o', s1) =>
      match write w o' s1 with
      | (inl e, s2) => (inl e, s2)
      | (inr _, s2) =>
          let ft := (time_time w (clock_reads s2) - time_time w (clock_reads s))%Q in
          match report progress_callback total (frame_count lv + 1) ft (tick s2) with
          | (inl e, s3) => (inl e, s3)
          | (inr _, s3) =>
              (inr {| frame_count := frame_count lv + 1;
                      person_count_stats :=
                        person_count_stats lv ++ [Z.of_nat (length ds)];
                      processing_times := processing_times lv ++ [ft] |}, s3)
          end
      end
  end.
Proof.
  intros Hd Ha. unfold loop_body, bind, time, detect, lift, ret.
  rewrite Hd, Ha.
  destruct (overlay _ _ _ _ _) as [[e | o'] s1]; [reflexivity |].
  destruct (write w o' s1) as [[e | u] s2]; reflexivity.
Qed.

(** X13.  The rolling average of the FPS line is not guarded against a zero
    duration.  With the overlay on, when the two clock readings taken
    around the first frame are equal (a clock too coarse for a fast frame),
    the second iteration raises [ZeroDivisionError] at the average, after
    detection and annotation of the second frame: one frame was written,
    two were read. *)
Theorem zero_duration_stops_overlay (f1 f2 : frame) (rest : list frame)
    (ds1 ds2 : list Detection) (o1 o2 : frame) :
  cap_isOpened w = true -> meta_fps w <> 0 -> out_isOpened w = true ->
  cap_frames w = f1 :: f2 :: rest ->
  detect_persons (detector self) f1 = inr ds1 ->
  draw_detections (detector self) f1 ds1 = inr o1 ->
  out_write w [] o1 = None ->
  (time_time w 2 == time_time w 1)%Q ->
  detect_persons (detector self) f2 = inr ds2 ->
  draw_detections (detector self) f2 ds2 = inr o2 ->
  exists s,
    run w self progress_callback true = (inl (ZeroDivisionError AtRollingFps), s) /\
    written s = [o1] /\ cap_reads s = 2%nat /\ detector_calls s = 2%nat.
Proof.
  intros Hcap Hfps Hout Hframes Hd1 Ha1 Hw1 Hclock Hd2 Ha2.
  unfold run, process_video, bind.
  destruct (setup w self initial) as [rs s0] eqn:Hset.
  apply setup_inv in Hset
    as [(_ & Hc & _) | [(_ & _ & Hf & _) | [(_ & _ & _ & Ho & _)
                                           | (-> & _ & _ & _ & ->)]]];
    [congruence | contradiction | congruence |].
  rewrite Hframes. cbn [loop].
  unfold bind at 1. unfold read at 1. cbn beta iota. unfold bind at 1.
  rewrite (loop_body_to_overlay (meta_total w) f1 ds1 o1 true _ _ Hd1 Ha1).
  cbn [processing_times no_frames overlay length Nat.ltb Nat.leb andb].
  unfold ret at 1. unfold write at 1.
  cbn [written tick count_detect count_read writer_on initial].
  rewrite Hw1. cbn zeta. cbn [frame_count no_frames]. rewrite report_first.
  unfold bind at 1. unfold read at 1. cbn beta iota. unfold bind at 1.
  rewrite (loop_body_to_overlay (meta_total w) f2 ds2 o2 true _ _ Hd2 Ha2).
  cbn [processing_times app].
  rewrite overlay_zero_mean.
  - eexists. split; [reflexivity |]. repeat split.
  - discriminate.
  - unfold last_n. cbn [length Nat.sub skipn]. unfold sumQ. cbn [fold_left].
    cbn [clock_reads tick push count_detect count_read writer_on initial].
    rewrite Hclock. ring.
Qed.

End OverlayFurther.

(** ** A callback that returns changes nothing else *)

(** Two computations that agree on the outcome and on everything in the
    state but the record of the progress calls, from states that agree so. *)
Lemma without_calls_fields sa sb :
  without_calls sa = without_calls sb ->
  cap_released sa = cap_released sb /\ out_released sa = out_released sb /\
  writer_created sa = writer_created sb /\ cap_reads sa = cap_reads sb /\
  clock_reads sa = clock_reads sb /\ detector_calls sa = detector_calls sb /\
  written sa = written sb.
Proof. unfold without_calls. intros Heq. inversion Heq. repeat split; assumption. Qed.

Lemma without_calls_intro sa sb :
  cap_released sa = cap_released sb -> out_released sa = out_released sb ->
  writer_created sa = writer_created sb -> cap_reads sa = cap_reads sb ->
  clock_reads sa = clock_reads sb -> detector_calls sa = detector_calls sb ->
  written sa = written sb ->
  without_calls sa = without_calls sb.
Proof. unfold without_calls. intros -> -> -> -> -> -> ->. reflexivity. Qed.

Ltac same_but_calls H :=
  apply without_calls_fields in H as (? & ? & ? & ? & ? & ? & ?);
  apply without_calls_intro; simpl; congruence.

Section Simulation.
Context `{Cv2} `{PyFormat}.
Variables (w : world) (self : t) (cb : callback) (show_fps : bool) (total : Z).
Hypothesis total_not_0 : total <> 0.
Hypothesis cb_returns : forall a, cb a = None.

Lemma agree_bind {A B : Type} (c1 c2 : M A) (k1 k2 : A -> M B) :
  agree c1 c2 -> (forall a, agree (k1 a) (k2 a)) -> agree (bind c1 k1) (bind c2 k2).
Proof.
  intros Hc Hk sa sb Hs. unfold bind.
  destruct (Hc sa sb Hs) as [Hr Hs'].
  destruct (c1 sa) as [[e1 | a1] sa'], (c2 sb) as [[e2 | a2] sb']; simpl in Hr, Hs';
    try discriminate Hr.
  - inversion Hr; subst e2. split; [reflexivity | exact Hs'].
  - inversion Hr; subst a2. apply Hk. exact Hs'.
Qed.

Lemma agree_pure {A : Type} (r : result A) : agree (lift r) (lift r).
Proof. intros sa sb Hs. split; [reflexivity | exact Hs]. Qed.

Lemma agree_time : agree (time w) (time w).
Proof.
  intros sa sb Hs. unfold time. simpl. split.
  - apply without_calls_fields in Hs as (_ & _ & _ & _ & -> & _). reflexivity.
  - same_but_calls Hs.
Qed.

Lemma agree_read : agree read read.
Proof. intros sa sb Hs. split; [reflexivity | simpl; same_but_calls Hs]. Qed.

Lemma agree_detect f : agree (detect self f) (detect self f).
Proof. intros sa sb Hs. split; [reflexivity | simpl; same_but_calls Hs]. Qed.

Lemma agree_write f : agree (write w f) (write w f).
Proof.
  intros sa sb Hs. unfold write.
  assert (Hw : written sa = written sb)
    by (apply without_calls_fields in Hs as (_ & _ & _ & _ & _ & _ & Hw); exact Hw).
  rewrite Hw. destruct (out_write w (written sb) f); simpl.
  - split; [reflexivity | exact Hs].
  - split; [reflexivity | same_but_calls Hs].
Qed.

Lemma agree_overlay times ds o :
  agree (overlay show_fps times ds o) (overlay show_fps times ds o).
Proof.
  unfold overlay. destruct (show_fps && _); [| apply (agree_pure (inr o))].
  apply agree_bind; [apply agree_pure | intros mean].
  apply agree_bind; [apply agree_pure | intros avg]. apply (agree_pure (inr _)).
Qed.

Lemma agree_report fc ft :
  agree (report (Some cb) total fc ft) (report None total fc ft).
Proof.
  intros sa sb Hs.
  destruct (Z.eq_dec (fc mod 30) 0) as [Hmod | Hmod].
  - rewrite report_calls_back by assumption. unfold invoke. rewrite cb_returns.
    simpl. split; [reflexivity | same_but_calls Hs].
  - rewrite report_skips by assumption. split; [reflexivity | exact Hs].
Qed.

Lemma agree_loop_body f lv :
  agree (loop_body w self (Some cb) show_fps total f lv)
        (loop_body w self None show_fps total f lv).
Proof.
  unfold loop_body.
  apply agree_bind; [apply agree_time | intros frame_start].
  apply agree_bind; [apply agree_detect | intros ds].
  apply agree_bind; [apply agree_pure | intros o].
  apply agree_bind; [apply agree_overlay | intros o'].
  apply agree_bind; [apply agree_write | intros u].
  apply agree_bind; [apply agree_time | intros now].
  apply agree_bind; [apply agree_report | intros u']. apply (agree_pure (inr _)).
Qed.

Lemma agree_loop frames :
  forall lv,
  agree (loop w self (Some cb) show_fps total frames lv)
        (loop w self None show_fps total frames lv).
Proof.
  induction frames as [| f rest IH]; intros lv; simpl.
  - apply agree_bind; [apply agree_read | intros u]. apply (agree_pure (inr lv)).
  - apply agree_bind; [apply agree_read | intros u].
    apply agree_bind; [apply agree_loop_body | intros lv']. apply IH.
Qed.

Lemma agree_finalize width height start now lv :
  agree (finalize self width height start now lv)
        (finalize self width height start now lv).
Proof.
  unfold finalize.
  apply agree_bind; [destruct (gt _ 0); [apply agree_pure | apply (agree_pure (inr _))] |].
  intros avg.
  apply agree_bind;
    [destruct (person_count_stats lv); [apply (agree_pure (inr _)) | apply agree_pure] |].
  intros avgp. apply (agree_pure (inr _)).
Qed.

End Simulation.

Section CallbackSilent.
Context `{Cv2} `{PyFormat}.
Variables (w : world) (self : t) (cb : callback) (show_fps : bool).

(** X14.  A progress callback that returns is only an observer.  When the
    metadata total is not 0, the run with such a callback has, on the same
    streams and for the same readings of the clock, the outcome of the run
    without one (the same summary or the same exception) and leaves the
    same trace: the same frames written, as many reads, clock readings,
    detector calls and releases.  Only the record of the calls differs. *)
Theorem callback_is_an_observer :
  meta_total w <> 0 ->
  (forall a, cb a = None) ->
  fst (run w self (Some cb) show_fps) = fst (run w self None show_fps) /\
  without_calls (snd (run w self (Some cb) show_fps)) =
    without_calls (snd (run w self None show_fps)).
Proof.
  intros Htotal Hcb. unfold run, process_video, bind.
  destruct (setup w self initial) as [rs s0] eqn:Hset.
  apply setup_inv in Hset
    as [(-> & _) | [(-> & _) | [(-> & _) | (-> & _ & _ & _ & ->)]]];
    try (split; reflexivity).
  destruct (agree_loop w self cb show_fps (meta_total w) Htotal Hcb (cap_frames w)
              no_frames (tick (writer_on initial)) (tick (writer_on initial)) eq_refl)
    as [Hr Hs].
  destruct (loop w self (Some cb) _ _ _ _ _) as [[e1 | lv1] sa],
           (loop w self None _ _ _ _ _) as [[e2 | lv2] sb];
    simpl in Hr, Hs; try discriminate Hr.
  - inversion Hr; subst e2. split; [reflexivity | exact Hs].
  - inversion Hr; subst lv2. unfold release_cap, release_out, time.
    assert (Hclk : clock_reads sa = clock_reads sb)
      by (apply without_calls_fields in Hs as (_ & _ & _ & _ & Hc & _); exact Hc).
    cbn [clock_reads out_release cap_release]. rewrite Hclk.
    apply (agree_finalize self (meta_width w) (meta_height w) (time_time w 0)
             (time_time w (clock_reads sb)) lv1).
    same_but_calls Hs.
Qed.

End CallbackSilent.

(** ** Runs that go through *)

Section GoesThrough.
Context `{Cv2} `{PyFormat}.
Variables (w : world) (self : t) (cb : callback) (show_fps : bool) (total : Z).

Lemma report_returns fc ft s :
  total <> 0 -> (forall a, cb a = None) ->
  exists s', report (Some cb) total fc ft s = (inr tt, s').
Proof.
  intros Htotal Hcb. destruct (Z.eq_dec (fc mod 30) 0) as [Hmod | Hmod].
  - rewrite report_calls_back by assumption. unfold invoke. rewrite Hcb.
    eexists. reflexivity.
  - rewrite report_skips by assumption. eexists. reflexivity.
Qed.

Lemma loop_returns frames :
  forall lv s,
  nothing_else_raises w self show_fps ->
  total <> 0 -> (forall a, cb a = None) ->
  show_fps = false \/ Forall (fun t => (0 < t)%Q) (processing_times lv) ->
  exists lv' s', loop w self (Some cb) show_fps total frames lv s = (inr lv', s').
Proof.
  induction frames as [| f rest IH]; intros lv s Hok Htotal Hcb Hpos.
  - eexists _, _. reflexivity.
  - simpl loop. unfold bind at 1. unfold read at 1. cbn beta iota.
    unfold bind at 1.
    destruct (loop_body_runs w self cb show_fps total f lv (count_read s) Hok Hpos)
      as [o Hbody].
    cbn zeta in Hbody. rewrite Hbody.
    destruct (report_returns (frame_count lv + 1)
                (time_time w (S (clock_reads (count_read s))) -
                 time_time w (clock_reads (count_read s)))
                (tick (push o (count_detect (tick (count_read s))))) Htotal Hcb)
      as [s1 Hrep].
    rewrite Hrep. apply IH; [exact Hok | exact Htotal | exact Hcb |].
    destruct Hok as (_ & _ & _ & [Hoff | Hclock]); [left; exact Hoff |].
    destruct Hpos as [Hoff | Hpos]; [left; exact Hoff | right]. simpl.
    apply Forall_app. split; [exact Hpos |]. constructor; [| constructor].
    specialize (Hclock (clock_reads s)). lra.
Qed.

End GoesThrough.

Section NeverReturns.
Context `{Cv2} `{PyFormat}.
Variables (w : world) (self : t) (cb : callback) (show_fps : bool).

(** With a callback, a metadata total of 0 and thirty frames or more, the
    loop cannot get to its end. *)
Lemma unannounced_frames_stop_the_run (r : result Summary) (s : state) :
  meta_total w = 0 -> (30 <= length (cap_frames w))%nat ->
  run w self (Some cb) show_fps = (r, s) ->
  exists e, r = inl e.
Proof.
  intros Htotal Hlen Hrun.
  apply run_inv in Hrun
    as [(e & -> & _) | [(e & -> & _)
                       | (sm & lv & s1 & -> & _ & _ & _ & Hloop & -> & _)]];
    [exists e; reflexivity | exists e; reflexivity | exfalso].
  pose proof (loop_silent_total_0 _ _ _ _ _ _ _ Htotal _ _ _ Hloop) as Hsame.
  apply loop_ok in Hloop as (_ & _ & _ & _ & _ & _ & Hcalls).
  rewrite Hsame in Hcalls.
  change (frame_count no_frames) with 0 in Hcalls.
  change (clock_reads (tick (writer_on initial))) with 1%nat in Hcalls.
  change (progress_calls (tick (writer_on initial))) with (@nil progress_args) in Hcalls.
  rewrite calls_from_start in Hcalls.
  apply (f_equal (@length progress_args)) in Hcalls.
  rewrite length_app, length_map, length_seq in Hcalls. cbn [length] in Hcalls.
  pose proof (Nat.div_mod_eq (length (cap_frames w)) 30) as Hn.
  pose proof (Nat.mod_upper_bound (length (cap_frames w)) 30 ltac:(lia)) as Hm.
  lia.
Qed.

End NeverReturns.

(** ** main.py *)

Lemma length_times (c : ascii) (n : Z) :
  Z.of_nat (String.length (Cli.times c n)) = Z.max 0 n.
Proof.
  unfold Cli.times.
  assert (Hlen : forall l, String.length (string_of_list_ascii l) = length l).
  { induction l as [| a l IH]; [reflexivity | simpl; rewrite IH; reflexivity]. }
  rewrite Hlen, repeat_length. lia.
Qed.

Lemma length_append (s1 s2 : string) :
  String.length (s1 +:+ s2) = (String.length s1 + String.length s2)%nat.
Proof. induction s1 as [| a s1 IH]; [reflexivity | simpl; rewrite IH; reflexivity]. Qed.

Lemma length_bar (progress : Q) :
  Z.of_nat (String.length (Cli.bar progress)) =
  Z.max 0 (Cli.filled progress) + Z.max 0 (40 - Cli.filled progress).
Proof.
  unfold Cli.bar. rewrite length_append, Nat2Z.inj_add, !length_times. reflexivity.
Qed.

Lemma int_inject_Z (z : Z) : int (inject_Z z) = z.
Proof. unfold int, inject_Z. simpl. apply Z.quot_1_r. Qed.

Lemma filled_at_least (z : Z) (progress : Q) :
  (inject_Z z * 100 <= 40 * progress)%Q -> z <= Cli.filled progress.
Proof.
  intros Hle. unfold Cli.filled, Cli.bar_length.
  rewrite <- (int_inject_Z z) at 1. apply int_monotone.
  apply Qle_shift_div_l; [reflexivity |].
  change (inject_Z 40) with 40%Q. exact Hle.
Qed.

Lemma filled_at_most (z : Z) (progress : Q) :
  (40 * progress <= inject_Z z * 100)%Q -> Cli.filled progress <= z.
Proof.
  intros Hle. unfold Cli.filled, Cli.bar_length.
  rewrite <- (int_inject_Z z) at 1. apply int_monotone.
  apply Qle_shift_div_r; [reflexivity |].
  change (inject_Z 40) with 40%Q. exact Hle.
Qed.

(** X15.  The progress bar is 40 characters long for every percentage
    between 0 and 100, of which [filled], between 0 and 40 and growing with
    the percentage, stand for the part done. *)
Theorem bar_has_40_characters (progress : Q) :
  (0 <= progress <= 100)%Q ->
  String.length (Cli.bar progress) = 40%nat /\
  0 <= Cli.filled progress <= 40 /\
  forall p', (progress <= p')%Q -> Cli.filled progress <= Cli.filled p'.
Proof.
  intros [Hlo Hhi].
  assert (Hfilled : 0 <= Cli.filled progress <= 40).
  { split.
    - apply filled_at_least. change (inject_Z 0) with 0%Q. lra.
    - apply filled_at_most. change (inject_Z 40) with 40%Q. lra. }
  split; [| split; [exact Hfilled |]].
  - pose proof (length_bar progress) as Hlen. lia.
  - intros p' Hle. unfold Cli.filled, Cli.bar_length. apply int_monotone.
    apply Qle_shift_div_l; [reflexivity |].
    assert (Heq : (inject_Z 40 * progress / 100 * 100 == inject_Z 40 * progress)%Q)
      by (field).
    rewrite Heq. change (inject_Z 40) with 40%Q. lra.
Qed.

(** X16.  The bar is not clipped.  A percentage of 102.5 or more, which
    [process_video] passes on when the metadata announce fewer frames than
    the stream holds, gives more than 40 characters: the bar is then as
    long as [filled]. *)
Theorem bar_overflows (progress : Q) :
  (1025 # 10 <= progress)%Q ->
  Z.of_nat (String.length (Cli.bar progress)) = Cli.filled progress /\
  40 < Cli.filled progress.
Proof.
  intros Hbig.
  assert (Hfilled : 41 <= Cli.filled progress).
  { apply filled_at_least. change (inject_Z 41) with 41%Q. lra. }
  pose proof (length_bar progress) as Hlen. lia.
Qed.

Section MainProperties.
Context `{Cv2} `{PyFormat}.
Variables (os : Cli.Os) (args : Cli.Args).

Lemma show_fps_always : Cli.show_fps args = true.
Proof. unfold Cli.show_fps. destruct (Cli.show_fps_given args); reflexivity. Qed.

(** What [main] does once the input is there. *)
Lemma main_stage_inv :
  Cli.path_exists os (Cli.input args) = true ->
  (exists e, Cli.main_stage os args = Cli.DetectorFailed e /\
     Cli.new_detector os (Cli.model args) (Cli.conf args) (Cli.iou args)
       (Cli.device args) = inl e) \/
  (exists d e, Cli.main_stage os args = Cli.ProcessorFailed e /\
     Cli.new_detector os (Cli.model args) (Cli.conf args) (Cli.iou args)
       (Cli.device args) = inr d /\
     Cli.mkdir_parent os (Cli.output args) = Some e) \/
  (exists d r s,
     Cli.main_stage os args = Cli.Processed r s /\
     Cli.new_detector os (Cli.model args) (Cli.conf args) (Cli.iou args)
       (Cli.device args) = inr d /\
     Cli.mkdir_parent os (Cli.output args) = None /\
     run (Cli.video os (Cli.input args) (Cli.output args))
       {| detector := person_detector d;
          input_path := Cli.input args;
          output_path := Cli.output args |}
       (Some Cli.progress_callback) true = (r, s)).
Proof.
  intros Hexists. unfold Cli.main_stage, Cli.new_processor.
  rewrite Hexists, show_fps_always. cbn [negb].
  destruct (Cli.new_detector _ _ _ _ _) as [e | d]; [left; eauto |].
  right. destruct (Cli.mkdir_parent os (Cli.output args)) as [e |]; [left; eauto |].
  right. destruct (run _ _ _ _) as [r s] eqn:Hrun. exists d, r, s. auto.
Qed.




End MainProperties.

(** * Further concrete runs *)

Lemma detect_persons_ordered_witness :
  PersonDetector.model_predict Demo.thin_detector (Demo.solid 0)
    (PersonDetector.conf_threshold Demo.thin_detector)
    (PersonDetector.iou_threshold Demo.thin_detector)
    [PersonDetector.person_class_id Demo.thin_detector]
    (PersonDetector.device Demo.thin_detector) =
    inr [ {| boxes := Some [Demo.thin_box] |} ] /\
  PersonDetector.detect_persons Demo.thin_detector (Demo.solid 0) =
    inr [record_of Demo.thin_box] /\
  (length [record_of Demo.thin_box] <=
   length (all_boxes [ {| boxes := Some [Demo.thin_box] |} ]))%nat.
Proof.
  split; [reflexivity |]. split; [reflexivity |].
  exact (proj2 (detect_persons_ordered Demo.thin_detector (Demo.solid 0)
                  [ {| boxes := Some [Demo.thin_box] |} ] [record_of Demo.thin_box]
                  eq_refl eq_refl)).
Defined.

Lemma draw_detections_compose_witness :
  Demo.one_frame !! 0%nat = Some (Demo.solid 7) /\
  exists h1 o1 h2 o2 h3 o3,
    @PersonDetector.draw_detections Demo.cv2 Demo.fmt 0 [Demo.near_top] 2 (6 # 10)%Q
      Demo.one_frame = Some (h1, o1) /\
    @PersonDetector.draw_detections Demo.cv2 Demo.fmt o1 [Demo.lower_down] 2 (6 # 10)%Q
      h1 = Some (h2, o2) /\
    @PersonDetector.draw_detections Demo.cv2 Demo.fmt 0 [Demo.near_top; Demo.lower_down]
      2 (6 # 10)%Q Demo.one_frame = Some (h3, o3) /\
    h2 !! o2 = h3 !! o3.
Proof.
  assert (Hsrc : Demo.one_frame !! 0%nat = Some (Demo.solid 7)) by reflexivity.
  split; [exact Hsrc |].
  destruct (@draw_detections_compose Demo.cv2 Demo.fmt 2 (6 # 10)%Q 0
              [Demo.near_top] [Demo.lower_down] Demo.one_frame (Demo.solid 7) Hsrc)
    as (h1 & o1 & h2 & o2 & h3 & o3 & Hc1 & Hc2 & Hc3 & Heq & _).
  exists h1, o1, h2, o2, h3, o3.
  split; [exact Hc1 |]. split; [exact Hc2 |]. split; [exact Hc3 | exact Heq].
Defined.

Lemma draw_detections_nothing_witness :
  Demo.one_frame !! 0%nat = Some (Demo.solid 7) /\
  exists out,
    @PersonDetector.draw_detections Demo.cv2 Demo.fmt 0 [] 2 (6 # 10)%Q
      Demo.one_frame = Some (<[out := Demo.solid 7]> Demo.one_frame, out) /\
    out <> 0%nat.
Proof.
  assert (Hsrc : Demo.one_frame !! 0%nat = Some (Demo.solid 7)) by reflexivity.
  split; [exact Hsrc |].
  destruct (@draw_detections_nothing Demo.cv2 Demo.fmt 2 (6 # 10)%Q 0
              Demo.one_frame (Demo.solid 7) Hsrc)
    as (out & Hcall & _ & Hne & _).
  exists out. split; [exact Hcall | exact Hne].
Defined.

Lemma label_geometry_witness :
  bbox Demo.near_top = (3, 5, 8, 40) /\
  @getTextSize Demo.cv2 (@PersonDetector.label Demo.fmt Demo.near_top)
    FONT_HERSHEY_SIMPLEX (6 # 10)%Q 2 = ((90, 13), 5) /\
  exists p1 p2 org : point,
    (fst p1 <= fst org <= fst p2 /\ snd p1 <= snd org <= snd p2) /\
    1 <= snd org + 2 - 13.
Proof.
  split; [reflexivity |]. split; [reflexivity |].
  destruct (@label_geometry Demo.cv2 Demo.fmt 2 (6 # 10)%Q (Demo.solid 0) Demo.near_top
              3 5 8 40 90 13 5 eq_refl eq_refl ltac:(lia) ltac:(lia) ltac:(lia)
              ltac:(lia))
    as (p1 & p2 & org & _ & Hin & Htop).
  exists p1, p2, org. split; [exact Hin | exact Htop].
Defined.

Lemma open_failures_witness :
  (cap_isOpened Cases.no_decoder = false /\
   Demo.run Cases.no_decoder Demo.processor None true =
     (inl (ValueError CannotOpenInput "in.mp4"), initial)) /\
  (cap_isOpened Demo.ten_no_encoder = true /\
   meta_fps Demo.ten_no_encoder <> 0 /\
   out_isOpened Demo.ten_no_encoder = false /\
   Demo.run Demo.ten_no_encoder Demo.processor None true =
     (inl (ValueError CannotCreateOutput "out/out.mp4"), writer_on initial)).
Proof.
  assert (Hfps : meta_fps Demo.ten_no_encoder <> 0) by (vm_compute; discriminate).
  split.
  - split; [reflexivity |].
    exact (proj1 (@open_failures Demo.cv2 Demo.fmt Cases.no_decoder Demo.processor
                    None true) eq_refl).
  - split; [reflexivity |]. split; [exact Hfps |]. split; [reflexivity |].
    exact (proj2 (@open_failures Demo.cv2 Demo.fmt Demo.ten_no_encoder Demo.processor
                    None true) eq_refl Hfps eq_refl).
Defined.


Lemma output_is_annotated_input_witness :
  Demo.run Demo.ten Demo.processor None false =
    (inr (fst Cases.ten_plain), snd Cases.ten_plain) /\
  written (snd Cases.ten_plain) =
    map (annotate Demo.processor) (cap_frames Demo.ten).
Proof.
  assert (Hrun : Demo.run Demo.ten Demo.processor None false =
                   (inr (fst Cases.ten_plain), snd Cases.ten_plain))
    by (vm_compute; reflexivity).
  split; [exact Hrun |].
  exact (@output_is_annotated_input Demo.cv2 Demo.fmt Demo.ten Demo.processor None
           false (fst Cases.ten_plain) (snd Cases.ten_plain) eq_refl Hrun).
Defined.

Lemma first_frame_has_no_overlay_witness :
  cap_frames Demo.ten = Demo.solid 0 :: tl (cap_frames Demo.ten) /\
  Demo.run Demo.ten Demo.processor None true = (inr Demo.ten_summary, Demo.ten_final) /\
  (2 <= cap_reads Demo.ten_final)%nat /\
  written Demo.ten_final !! 0%nat = Some (annotate Demo.processor (Demo.solid 0)).
Proof.
  assert (Hframes : cap_frames Demo.ten = Demo.solid 0 :: tl (cap_frames Demo.ten))
    by (vm_compute; reflexivity).
  assert (Hrun : Demo.run Demo.ten Demo.processor None true =
                   (inr Demo.ten_summary, Demo.ten_final))
    by (vm_compute; reflexivity).
  assert (Hreads : (2 <= cap_reads Demo.ten_final)%nat) by (vm_compute; lia).
  split; [exact Hframes |]. split; [exact Hrun |]. split; [exact Hreads |].
  exact (@first_frame_has_no_overlay Demo.cv2 Demo.fmt Demo.ten Demo.processor None true
           (Demo.solid 0) (tl (cap_frames Demo.ten)) (inr Demo.ten_summary)
           Demo.ten_final Hframes Hrun Hreads).
Defined.

Lemma detector_failure_propagates_witness :
  setup Demo.ten Demo.failing_processor initial =
    (inr (2, 2, 10, (0 # 10)%Q), tick (writer_on initial)) /\
  cap_frames Demo.ten =
    firstn 2 (cap_frames Demo.ten) ++ Demo.solid 2 :: skipn 3 (cap_frames Demo.ten) /\
  @iterations Demo.cv2 Demo.fmt Demo.ten Demo.failing_processor None true 10
    (firstn 2 (cap_frames Demo.ten)) no_frames (tick (writer_on initial)) =
    (inr (fst Cases.ten_after_2), snd Cases.ten_after_2) /\
  detect_persons (detector Demo.failing_processor) (Demo.solid 2) =
    inl (Raised "RuntimeError") /\
  Demo.run Demo.ten Demo.failing_processor None true =
    (inl (Raised "RuntimeError"),
     count_detect (tick (count_read (snd Cases.ten_after_2)))).
Proof.
  assert (Hset : setup Demo.ten Demo.failing_processor initial =
                   (inr (2, 2, 10, (0 # 10)%Q), tick (writer_on initial)))
    by (vm_compute; reflexivity).
  assert (Hsplit : cap_frames Demo.ten =
                     firstn 2 (cap_frames Demo.ten) ++
                     Demo.solid 2 :: skipn 3 (cap_frames Demo.ten))
    by (vm_compute; reflexivity).
  assert (Hit : @iterations Demo.cv2 Demo.fmt Demo.ten Demo.failing_processor None true
                  10 (firstn 2 (cap_frames Demo.ten)) no_frames
                  (tick (writer_on initial)) =
                (inr (fst Cases.ten_after_2), snd Cases.ten_after_2))
    by (vm_compute; reflexivity).
  assert (Hdet : detect_persons (detector Demo.failing_processor) (Demo.solid 2) =
                 inl (Raised "RuntimeError")) by reflexivity.
  split; [exact Hset |]. split; [exact Hsplit |]. split; [exact Hit |].
  split; [exact Hdet |].
  exact (proj1 (@detector_failure_propagates Demo.cv2 Demo.fmt Demo.ten
                  Demo.failing_processor None true 2 2 10 (0 # 10)%Q
                  (tick (writer_on initial)) (firstn 2 (cap_frames Demo.ten))
                  (skipn 3 (cap_frames Demo.ten)) (Demo.solid 2) (Raised "RuntimeError")
                  (fst Cases.ten_after_2) (snd Cases.ten_after_2)
                  Hset Hsplit Hit (or_introl Hdet))).
Defined.

Lemma demo_model_answers (f : frame) (c i : Q) (cl : list Z) (dev : string) :
  exists rs, Demo.even_model f c i cl dev = inr rs.
Proof. unfold Demo.even_model. destruct (Z.even (Demo.grey f)); eexists; reflexivity. Qed.

Lemma demo_clock_advances (n : nat) (fps total : Q) (k : nat) :
  (time_time (Demo.video n fps total true) k <
   time_time (Demo.video n fps total true) (S k))%Q.
Proof. unfold Qlt. simpl. lia. Qed.

Lemma demo_nothing_else_raises (n : nat) (fps total : Q) :
  nothing_else_raises (Demo.video n fps total true) Demo.processor true.
Proof.
  split; [| split; [| split]].
  - intros f. simpl. unfold PersonDetector.detect_persons. simpl.
    destruct (demo_model_answers f (3 # 10) (45 # 100) [0] "cpu") as [rs ->].
    eexists. reflexivity.
  - intros f ds. eexists. reflexivity.
  - intros l f. reflexivity.
  - right. apply demo_clock_advances.
Qed.

Lemma callback_failure_propagates_witness :
  cap_isOpened Demo.thirty = true /\
  meta_fps Demo.thirty <> 0 /\
  out_isOpened Demo.thirty = true /\
  nothing_else_raises Demo.thirty Demo.processor true /\
  meta_total Demo.thirty <> 0 /\
  (30 <= length (cap_frames Demo.thirty))%nat /\
  (forall a, Cases.grumpy a = Some (Raised "RuntimeError")) /\
  Demo.run Demo.thirty Demo.processor (Some Cases.grumpy) true =
    (fst Cases.thirty_grumpy, snd Cases.thirty_grumpy) /\
  fst Cases.thirty_grumpy = inl (Raised "RuntimeError") /\
  cap_reads (snd Cases.thirty_grumpy) = 30%nat /\
  length (written (snd Cases.thirty_grumpy)) = 30%nat.
Proof.
  assert (Hfps : meta_fps Demo.thirty <> 0) by (vm_compute; discriminate).
  assert (Htotal : meta_total Demo.thirty <> 0) by (vm_compute; discriminate).
  assert (Hlen : (30 <= length (cap_frames Demo.thirty))%nat) by (vm_compute; lia).
  assert (Hrun : Demo.run Demo.thirty Demo.processor (Some Cases.grumpy) true =
                   (fst Cases.thirty_grumpy, snd Cases.thirty_grumpy))
    by (vm_compute; reflexivity).
  split; [reflexivity |]. split; [exact Hfps |]. split; [reflexivity |].
  split; [apply demo_nothing_else_raises |]. split; [exact Htotal |].
  split; [exact Hlen |]. split; [reflexivity |]. split; [exact Hrun |].
  destruct (@callback_failure_propagates Demo.cv2 Demo.fmt Demo.thirty Demo.processor
              Cases.grumpy true (Raised "RuntimeError") (fst Cases.thirty_grumpy)
              (snd Cases.thirty_grumpy) eq_refl Hfps eq_refl
              (demo_nothing_else_raises 30 25 30) Htotal Hlen (fun _ => eq_refl) Hrun)
    as (Hr & Hreads & Hw & _).
  split; [exact Hr |]. split; [exact Hreads | exact Hw].
Defined.

Lemma percent_follows_metadata_witness :
  Demo.run Demo.sixty Demo.processor (Some Demo.quiet) true =
    (inr Demo.sixty_summary, Demo.sixty_final) /\
  0 < meta_total Demo.sixty /\
  forall i a, progress_calls Demo.sixty_final !! i = Some a -> (0 < percent a)%Q.
Proof.
  assert (Hrun : Demo.run Demo.sixty Demo.processor (Some Demo.quiet) true =
                   (inr Demo.sixty_summary, Demo.sixty_final))
    by (vm_compute; reflexivity).
  assert (Htotal : 0 < meta_total Demo.sixty) by (vm_compute; reflexivity).
  split; [exact Hrun |]. split; [exact Htotal |].
  intros i a Hi.
  exact (proj1 (proj1 (@percent_follows_metadata Demo.cv2 Demo.fmt Demo.sixty
                         Demo.processor Demo.quiet true Demo.sixty_summary
                         Demo.sixty_final Hrun Htotal) i a Hi)).
Defined.

Lemma zero_duration_stops_overlay_witness :
  cap_isOpened Cases.frozen = true /\
  meta_fps Cases.frozen <> 0 /\
  out_isOpened Cases.frozen = true /\
  cap_frames Cases.frozen =
    Demo.solid 0 :: Demo.solid 1 :: skipn 2 (cap_frames Cases.frozen) /\
  (time_time Cases.frozen 2 == time_time Cases.frozen 1)%Q /\
  exists s,
    Demo.run Cases.frozen Demo.processor None true =
      (inl (ZeroDivisionError AtRollingFps), s) /\
    written s = [Cases.first_annotated].
Proof.
  assert (Hfps : meta_fps Cases.frozen <> 0) by (vm_compute; discriminate).
  assert (Hframes : cap_frames Cases.frozen =
                      Demo.solid 0 :: Demo.solid 1 :: skipn 2 (cap_frames Cases.frozen))
    by (vm_compute; reflexivity).
  assert (Hclock : (time_time Cases.frozen 2 == time_time Cases.frozen 1)%Q)
    by reflexivity.
  split; [reflexivity |]. split; [exact Hfps |]. split; [reflexivity |].
  split; [exact Hframes |]. split; [exact Hclock |].
  destruct (@zero_duration_stops_overlay Demo.cv2 Demo.fmt Cases.frozen Demo.processor
              None (Demo.solid 0) (Demo.solid 1) (skipn 2 (cap_frames Cases.frozen))
              [ {| bbox := (0, 0, 1, 1); confidence := (9 # 10)%Q;
                   class_name := "person"; class_id := 0 |} ]
              [] Cases.first_annotated (Demo.solid 1)
              eq_refl Hfps eq_refl Hframes eq_refl eq_refl eq_refl Hclock
              eq_refl eq_refl)
    as (s & Hrun & Hw & _).
  exists s. split; [exact Hrun | exact Hw].
Defined.

Lemma callback_is_an_observer_witness :
  meta_total Demo.sixty <> 0 /\
  (forall a, Demo.quiet a = None) /\
  fst (Demo.run Demo.sixty Demo.processor (Some Demo.quiet) true) =
    fst (Demo.run Demo.sixty Demo.processor None true).
Proof.
  assert (Htotal : meta_total Demo.sixty <> 0) by (vm_compute; discriminate).
  split; [exact Htotal |]. split; [reflexivity |].
  exact (proj1 (@callback_is_an_observer Demo.cv2 Demo.fmt Demo.sixty Demo.processor
                  Demo.quiet true Htotal (fun _ => eq_refl))).
Defined.

Lemma bar_has_40_characters_witness :
  (0 <= 50 <= 100)%Q /\ String.length (Cli.bar 50) = 40%nat /\ 0 <= Cli.filled 50 <= 40.
Proof.
  assert (Hin : (0 <= 50 <= 100)%Q) by (split; unfold Qle; simpl; lia).
  split; [exact Hin |].
  destruct (bar_has_40_characters 50 Hin) as (Hlen & Hfilled & _).
  split; [exact Hlen | exact Hfilled].
Defined.

Lemma bar_overflows_witness :
  (1025 # 10 <= 150)%Q /\ 40 < Cli.filled 150.
Proof.
  assert (Hbig : (1025 # 10 <= 150)%Q) by (unfold Qle; simpl; lia).
  split; [exact Hbig |].
  exact (proj2 (bar_overflows 150 Hbig)).
Defined.



